(** * system_monitor: sampling loop, batched persistence and query filter

    A shallow embedding of [monitor.py] (the sampling loop [run_metrics] and
    its helpers) and of [filter_time] from [analyzer.py].

    Modelling conventions.
    - A Python [float] is represented by the rational number it denotes
      ([Q]); [+] and [/] are the exact operations.  [round(x, 2)] is the
      correctly rounded two-decimal value (ties to even), which is what
      CPython computes from the exact value of [x]; its result is kept as
      the decimal [n/100].  On the disk path, where a difference of integer
      counters is divided by 1024 twice, this is what binary64 arithmetic
      gives as long as the difference is below 2^53 in absolute value.
    - Python [int] is [Z]; a list object mutated in place is passed in and
      handed back.
    - [time.sleep] changes nothing that is modelled and is left out.
    - The environment (psutil, GPUtil, the clock, SQLite) is an input of the
      model: each loop iteration consumes one [tick] holding what the probes
      return, or that they raise, and how the storage behaves.
    - A raised exception is a result of its own ([Raise]); nothing in
      [monitor.py] catches one. *)

From Stdlib Require Import String ZArith QArith Qround List Bool Lia Lqa.
From Stdlib Require Import DecimalString.
Import ListNotations.

Local Open Scope Z_scope.

(** ** Results and exceptions *)

Inductive exn : Type :=
| OSError               (* a psutil / GPUtil probe failed *)
| ZeroDivisionError
| OperationalError      (* sqlite3.OperationalError *)
| UnboundLocalError.

Inductive res (A : Type) : Type :=
| Ok (a : A)
| Raise (e : exn).
Arguments Ok {A} a.
Arguments Raise {A} e.

(** What an external probe does when called: it returns or it raises. *)
Inductive probe (A : Type) : Type :=
| Returns (a : A)
| Fails.
Arguments Returns {A} a.
Arguments Fails {A}.

Definition call {A} (p : probe A) : res A :=
  match p with
  | Returns a => Ok a
  | Fails => Raise OSError
  end.

(** ** Python numerics *)

Module Py.

(** Nearest integer, ties to the even one. *)
Definition round_half_even (x : Q) : Z :=
  let f := Qfloor x in
  match Qcompare (x - inject_Z f) (1 # 2) with
  | Lt => f
  | Gt => f + 1
  | Eq => if Z.even f then f else f + 1
  end.

(** [round(x, 2)] *)
Definition round2 (x : Q) : Q := Qmake (round_half_even (x * 100)) 100.

(** [sum(xs)]: left to right from the integer 0. *)
Definition sum (xs : list Q) : Q := fold_left Qplus xs 0%Q.

(** [len(xs)] as a Python int. *)
Definition len {A} (xs : list A) : Z := Z.of_nat (length xs).

(** [xs.pop(0)] on the list object: what is left. *)
Definition pop0 {A} (xs : list A) : list A := tl xs.

(** [str(n)] for an int. *)
Definition str (n : Z) : string := NilZero.string_of_int (Z.to_int n).

End Py.

(** ** monitor.py *)

Definition BUFFER_SIZE : Z := 60.
Definition CPU_AVG_WINDOW : Z := 8.  (* [cpu_avg_num = 8] in [run_metrics] *)

(** [collect_cpu_metrics(cpu_percentages, cpu_avg_num)].
    [reading] is the outcome of [psutil.cpu_percent(interval=1)].  The list
    is mutated in place: the second component is its content afterwards. *)
Definition collect_cpu_metrics (reading : probe Q)
    (cpu_percentages : list Q) (cpu_avg_num : Z) : res Q * list Q :=
  match call reading with
  | Raise e => (Raise e, cpu_percentages)
  | Ok cpu_percent =>
      let appended := cpu_percentages ++ [cpu_percent] in
      let window :=
        if Py.len appended >? cpu_avg_num then Py.pop0 appended else appended in
      if Py.len window =? 0
      then (Raise ZeroDivisionError, window)
      else (Ok (Py.round2 (Py.sum window / inject_Z (Py.len window))), window)
  end.

(** [collect_gpu_metrics()]; [gpus] is the outcome of [GPUtil.getGPUs()],
    each device given by its [load]. *)
Definition collect_gpu_metrics (gpus : probe (list Q)) : res Q :=
  match call gpus with
  | Raise e => Raise e
  | Ok GPUs =>
      match GPUs with
      | gpu0 :: _ => Ok (Py.round2 (gpu0 * 100))
      | [] => Ok 0%Q
      end
  end.

(** [collect_ram_metrics()]; [vm] is [psutil.virtual_memory().percent]. *)
Definition collect_ram_metrics (vm : probe Q) : res Q :=
  match call vm with
  | Raise e => Raise e
  | Ok percent => Ok (Py.round2 percent)
  end.

(** [collect_disk_metrics(old_read, old_write, initial_cycle)]; [disk_io] is
    the outcome of [psutil.disk_io_counters()] as
    [(read_bytes, write_bytes)]. *)
Definition collect_disk_metrics (old_read old_write : Z) (initial_cycle : bool)
    (disk_io : probe (Z * Z)) : res (Q * Q * Z * Z) :=
  match call disk_io with
  | Raise e => Raise e
  | Ok (new_read, new_write) =>
      if initial_cycle then Ok (0%Q, 0%Q, new_read, new_write)
      else
        let read_speed :=
          Py.round2 (inject_Z (new_read - old_read) / 1024 / 1024) in
        let write_speed :=
          Py.round2 (inject_Z (new_write - old_write) / 1024 / 1024) in
        Ok (read_speed, write_speed, new_read, new_write)
  end.

(** The tuple appended to [data_buffer], which is also the row inserted in
    table [metrics] (its [id] is assigned by the store, in insertion
    order). *)
Record Sample : Type := mkSample {
  timestamp : string;
  cpu_percent : Q;
  gpu_percent : Q;
  ram_percent : Q;
  read_speed : Q;
  write_speed : Q
}.

(** *** The Tk variables written by [update_gui] *)

Inductive label : Type :=
| Unset                 (* a fresh [StringVar()] *)
| Percent (x : Q)       (* f"{x}%" *)
| MBps (x : Q).         (* f"{x} MB/s" *)

Record gui_vars : Type := mkGui {
  remaining_time : string;
  cpu_label_var : label;
  gpu_label_var : label;
  ram_label_var : label;
  read_speed_var : label;
  write_speed_var : label
}.

(** The variables as [__main__] creates them. *)
Definition initial_gui : gui_vars :=
  mkGui "Initializing" Unset Unset Unset Unset Unset.

Definition update_gui (cpu_percent gpu_percent ram_percent read_speed
    write_speed : Q) (data_buffer : list Sample) : gui_vars :=
  mkGui ("Time until next save: "
           ++ Py.str (BUFFER_SIZE - Py.len data_buffer) ++ "s")
        (Percent cpu_percent) (Percent gpu_percent) (Percent ram_percent)
        (MBps read_speed) (MBps write_speed).

(** *** The SQLite connection

    [table] holds the committed rows of [metrics], which is what is durable
    and what any other connection reads.  [txn] holds the rows inserted by
    the open transaction, if one is open. *)
Record database : Type := mkDb {
  table : list Sample;
  txn : option (list Sample)
}.

(** How the storage behaves during one flush. *)
Inductive fault : Type :=
| NoFault
| FailBegin             (* BEGIN raises *)
| FailInsert (k : nat)  (* the INSERT of row number k (from 0) raises *)
| FailCommit.           (* COMMIT raises *)

(** [cursor.execute("BEGIN TRANSACTION")] *)
Definition execute_begin (f : fault) (db : database) : res unit * database :=
  match f with
  | FailBegin => (Raise OperationalError, db)
  | _ =>
      match txn db with
      | Some _ => (Raise OperationalError, db)  (* already in a transaction *)
      | None => (Ok tt, mkDb (table db) (Some []))
      end
  end.

(** [cursor.executemany("INSERT INTO metrics ...", rows)].  Outside a
    transaction the sqlite3 module opens one first. *)
Definition executemany_insert (f : fault) (rows : list Sample)
    (db : database) : res unit * database :=
  let pending := match txn db with Some p => p | None => [] end in
  match f with
  | FailInsert k =>
      if (k <? length rows)%nat
      then (Raise OperationalError,
            mkDb (table db) (Some (pending ++ firstn k rows)))
      else (Ok tt, mkDb (table db) (Some (pending ++ rows)))
  | _ => (Ok tt, mkDb (table db) (Some (pending ++ rows)))
  end.

(** [cursor.execute("COMMIT")] *)
Definition execute_commit (f : fault) (db : database) : res unit * database :=
  match f with
  | FailCommit => (Raise OperationalError, db)
  | _ =>
      match txn db with
      | None => (Raise OperationalError, db)    (* no transaction is active *)
      | Some pending => (Ok tt, mkDb (table db ++ pending) None)
      end
  end.

(** A computation on a state [S] that may raise; the state reached is kept
    in both cases. *)
Definition M (S A : Type) : Type := S -> res A * S.

Definition ret {S A} (a : A) : M S A := fun s => (Ok a, s).

Definition bind {S A B} (m : M S A) (k : A -> M S B) : M S B :=
  fun s =>
    match m s with
    | (Ok a, s') => k a s'
    | (Raise e, s') => (Raise e, s')
    end.

Notation "x <- m ;; k" := (bind m (fun x => k))
  (at level 61, m at next level, right associativity).
Notation "m ;;; k" := (bind m (fun _ => k))
  (at level 61, right associativity).

(** [write_to_database(cursor, data_buffer)] *)
Definition write_to_database (f : fault) (data_buffer : list Sample)
    : M database unit :=
  execute_begin f ;;;
  executemany_insert f data_buffer ;;;
  execute_commit f.

(** *** The sampling loop

    The locals of [run_metrics], the connection it opened, the Tk variables
    it writes, and [flush_calls]: the batches handed to [write_to_database]
    so far, oldest first (kept for the statements only; the code has no
    such variable). *)
Record state : Type := mkState {
  old_read : Z;
  old_write : Z;
  cpu_percentages : list Q;
  initial_cycle : bool;
  data_buffer : list Sample;
  conn : database;
  gui : gui_vars;
  flush_calls : list (list Sample)
}.

(** What the environment does during one iteration of [while True]. *)
Record tick : Type := mkTick {
  now : string;                  (* time.strftime(TIMESTAMP_FORMAT) *)
  cpu_probe : probe Q;           (* psutil.cpu_percent(interval=1) *)
  gpu_probe : probe (list Q);    (* GPUtil.getGPUs() *)
  ram_probe : probe Q;           (* psutil.virtual_memory().percent *)
  disk_probe : probe (Z * Z);    (* psutil.disk_io_counters() *)
  storage : fault                (* the storage, should this tick flush *)
}.

Definition get {S} : M S S := fun s => (Ok s, s).
Definition modify {S} (f : S -> S) : M S unit := fun s => (Ok tt, f s).
Definition lift {S A} (r : res A) : M S A := fun s => (r, s).

Definition set_cpu_percentages (w : list Q) (s : state) : state :=
  mkState (old_read s) (old_write s) w (initial_cycle s) (data_buffer s)
          (conn s) (gui s) (flush_calls s).
Definition set_old (r w : Z) (s : state) : state :=
  mkState r w (cpu_percentages s) (initial_cycle s) (data_buffer s)
          (conn s) (gui s) (flush_calls s).
Definition set_initial_cycle (b : bool) (s : state) : state :=
  mkState (old_read s) (old_write s) (cpu_percentages s) b (data_buffer s)
          (conn s) (gui s) (flush_calls s).
Definition set_data_buffer (b : list Sample) (s : state) : state :=
  mkState (old_read s) (old_write s) (cpu_percentages s) (initial_cycle s) b
          (conn s) (gui s) (flush_calls s).
Definition set_conn (db : database) (s : state) : state :=
  mkState (old_read s) (old_write s) (cpu_percentages s) (initial_cycle s)
          (data_buffer s) db (gui s) (flush_calls s).
Definition set_gui (g : gui_vars) (s : state) : state :=
  mkState (old_read s) (old_write s) (cpu_percentages s) (initial_cycle s)
          (data_buffer s) (conn s) g (flush_calls s).
Definition log_flush_call (b : list Sample) (s : state) : state :=
  mkState (old_read s) (old_write s) (cpu_percentages s) (initial_cycle s)
          (data_buffer s) (conn s) (gui s) (flush_calls s ++ [b]).

(** The call [collect_cpu_metrics(cpu_percentages, cpu_avg_num)] on the
    list object of the loop. *)
Definition call_collect_cpu (t : tick) : M state Q :=
  fun s =>
    let '(r, w) :=
      collect_cpu_metrics (cpu_probe t) (cpu_percentages s) CPU_AVG_WINDOW in
    (r, set_cpu_percentages w s).

(** The call [write_to_database(c, data_buffer)] on the loop's connection. *)
Definition call_write_to_database (f : fault) (b : list Sample)
    : M state unit :=
  fun s =>
    let s1 := log_flush_call b s in
    let '(r, db) := write_to_database f b (conn s1) in
    (r, set_conn db s1).

(** One iteration of the [while True] body of [run_metrics]. *)
Definition loop_body (t : tick) : M state unit :=
  let timestamp := now t in
  cpu_percent <- call_collect_cpu t ;;
  gpu_percent <- lift (collect_gpu_metrics (gpu_probe t)) ;;
  ram_percent <- lift (collect_ram_metrics (ram_probe t)) ;;
  s0 <- get ;;
  d <- lift (collect_disk_metrics (old_read s0) (old_write s0)
               (initial_cycle s0) (disk_probe t)) ;;
  let '(read_speed, write_speed, new_read, new_write) := d in
  modify (set_old new_read new_write) ;;;
  if initial_cycle s0 then
    modify (set_initial_cycle false)                      (* continue *)
  else
    modify (fun s => set_data_buffer
       (data_buffer s ++ [mkSample timestamp cpu_percent gpu_percent
                            ram_percent read_speed write_speed]) s) ;;;
    modify (fun s => set_gui
       (update_gui cpu_percent gpu_percent ram_percent read_speed
          write_speed (data_buffer s)) s) ;;;
    s1 <- get ;;
    if Py.len (data_buffer s1) >=? BUFFER_SIZE then
      call_write_to_database (storage t) (data_buffer s1) ;;;
      modify (set_data_buffer [])                         (* .clear() *)
    else
      ret tt.

(** Where the thread running [run_metrics] stands after some ticks: still in
    the loop, or ended by an exception that left [run_metrics]. *)
Inductive outcome : Type :=
| Running (s : state)
| Crashed (e : exn) (s : state).

Fixpoint run_loop (ticks : list tick) (s : state) : outcome :=
  match ticks with
  | [] => Running s
  | t :: rest =>
      match loop_body t s with
      | (Ok _, s') => run_loop rest s'
      | (Raise e, s') => Crashed e s'
      end
  end.

(** The locals of [run_metrics] before the loop, on a freshly opened
    connection to a database whose [metrics] table holds [rows]. *)
Definition initial_state (rows : list Sample) : state :=
  mkState 0 0 [] true [] (mkDb rows None) initial_gui [].

(** [run_metrics()] while the environment supplies [ticks]. *)
Definition run_metrics (rows : list Sample) (ticks : list tick) : outcome :=
  run_loop ticks (initial_state rows).

Definition state_of (o : outcome) : state :=
  match o with Running s | Crashed _ s => s end.

Definition still_running (o : outcome) : bool :=
  match o with Running _ => true | Crashed _ _ => false end.

(** A tick in which every probe returns and the storage works. *)
Definition ok_tick (ts : string) (cpu : Q) (gpus : list Q) (ram : Q)
    (disk : Z * Z) : tick :=
  mkTick ts (Returns cpu) (Returns gpus) (Returns ram) (Returns disk) NoFault.

(** ** analyzer.py *)

Module Analyzer.

(** A [datetime] (and a [timedelta]) counted in microseconds. *)
Definition datetime : Type := Z.

Definition timedelta (weeks days hours : Z) : Z :=
  ((weeks * 7 + days) * 24 + hours) * 3600 * 1000000.

(** A DataFrame indexed by [timestamp]: its rows in order, each with its
    index value. *)
Definition DataFrame (A : Type) : Type := list (datetime * A).

(** [df[df.index >= past_time]] *)
Definition index_ge {A} (df : DataFrame A) (past_time : datetime)
    : DataFrame A :=
  filter (fun row => past_time <=? fst row) df.

(** [filter_time(df, time_period)]; [now] is what [datetime.now()]
    returns.  The local [past_time] is bound on three of the branches
    only; [inr] is the early [return df]. *)
Definition filter_time {A} (now : datetime) (df : DataFrame A)
    (time_period : string) : res (DataFrame A) :=
  let branch : option datetime + DataFrame A :=
    if (time_period =? "Last Hour")%string then
      inl (Some (now - timedelta 0 0 1))
    else if (time_period =? "Last Day")%string then
      inl (Some (now - timedelta 0 1 0))
    else if (time_period =? "Last Week")%string then
      inl (Some (now - timedelta 1 0 0))
    else if (time_period =? "All")%string then
      inr df
    else inl None in
  match branch with
  | inr r => Ok r
  | inl None => Raise UnboundLocalError
  | inl (Some past_time) => Ok (index_ge df past_time)
  end.

(** The values offered by the combo box of [create_controls]. *)
Definition periods : list string :=
  ["Last Hour"; "Last Day"; "Last Week"; "All"]%string.

End Analyzer.

(** ** Vocabulary of the statements *)

(** The last [n] elements of a list. *)
Definition lastn {A} (n : nat) (l : list A) : list A :=
  skipn (length l - n) l.

(** [sum(l) / len(l)] *)
Definition mean (l : list Q) : Q := (Py.sum l / inject_Z (Py.len l))%Q.

(** The CPU window after the loop has seen [readings], oldest first,
    starting from the empty list of [run_metrics]. *)
Definition cpu_window_after (readings : list Q) : list Q :=
  fold_left
    (fun w raw => snd (collect_cpu_metrics (Returns raw) w CPU_AVG_WINDOW))
    readings [].

(** The disk speed for a counter difference of [delta] bytes. *)
Definition disk_speed (delta : Z) : Q :=
  Py.round2 (inject_Z delta / 1024 / 1024).

Definition MB : Z := 1024 * 1024.

(** The window left by one call of the smoother at capacity 8. *)
Definition cpu_window_next (raw : Q) (w : list Q) : list Q :=
  if (8 <=? length w)%nat then tl (w ++ [raw]) else w ++ [raw].

(** The GPU value of a tick whose probe returned [gpus]. *)
Definition gpu_value (gpus : list Q) : Q :=
  match gpus with
  | gpu0 :: _ => Py.round2 (gpu0 * 100)
  | [] => 0%Q
  end.

(** The sample assembled in state [s] from what the probes returned. *)
Definition sample_in (s : state) (ts : string) (cpu : Q) (gpus : list Q)
    (ram : Q) (disk : Z * Z) : Sample :=
  mkSample ts
    (Py.round2 (mean (cpu_window_next cpu (cpu_percentages s))))
    (gpu_value gpus) (Py.round2 ram)
    (disk_speed (fst disk - old_read s))
    (disk_speed (snd disk - old_write s)).

(** The state right after [update_gui], before the test on the buffer
    length. *)
Definition sampled (s : state) (ts : string) (cpu : Q) (gpus : list Q)
    (ram : Q) (disk : Z * Z) : state :=
  let x := sample_in s ts cpu gpus ram disk in
  let buf := data_buffer s ++ [x] in
  mkState (fst disk) (snd disk) (cpu_window_next cpu (cpu_percentages s))
    false buf (conn s)
    (update_gui (cpu_percent x) (gpu_percent x) (ram_percent x)
       (read_speed x) (write_speed x) buf)
    (flush_calls s).

(** Whether the storage makes a flush of [n] rows raise. *)
Definition fails (f : fault) (n : nat) : bool :=
  match f with
  | NoFault => false
  | FailInsert k => (k <? n)%nat
  | FailBegin | FailCommit => true
  end.

(** Every probe of the tick returns. *)
Definition probes_return (t : tick) : bool :=
  match cpu_probe t, gpu_probe t, ram_probe t, disk_probe t with
  | Returns _, Returns _, Returns _, Returns _ => true
  | _, _, _, _ => false
  end.

(** Every probe returns and the storage works. *)
Definition healthy (t : tick) : bool :=
  probes_return t && match storage t with NoFault => true | _ => false end.

(** From [P : probes_return t = true], expose what each probe of [t]
    returned. *)
Ltac returning_tick t P :=
  let ts := fresh "ts" in
  let c := fresh "c" in let g := fresh "g" in
  let r := fresh "r" in let d := fresh "d" in
  let f := fresh "f" in
  destruct t as [ts c g r d f]; unfold probes_return in P;
  cbn [cpu_probe gpu_probe ram_probe disk_probe] in P;
  destruct c as [c|]; [|discriminate P];
  destruct g as [g|]; [|discriminate P];
  destruct r as [r|]; [|discriminate P];
  destruct d as [d|]; [|discriminate P].

(** The text [update_gui] leaves in [remaining_time] when [n] samples are
    buffered. *)
Definition remaining_text (n : Z) : string :=
  ("Time until next save: " ++ Py.str (BUFFER_SIZE - n) ++ "s")%string.

(** What one iteration does to the buffer, to the flush history and to the
    committed table. *)
Definition iteration_effect (s : state) (r : res unit) (s' : state) : Prop :=
  (* no sample: the baseline iteration, or a probe raised *)
  (data_buffer s' = data_buffer s /\ flush_calls s' = flush_calls s /\
   table (conn s') = table (conn s))
  \/
  (* a sample appended below capacity: no flush *)
  (exists x, Py.len (data_buffer s ++ [x]) < BUFFER_SIZE /\ r = Ok tt /\
     data_buffer s' = data_buffer s ++ [x] /\
     flush_calls s' = flush_calls s /\ table (conn s') = table (conn s))
  \/
  (* the sample that fills the buffer: one flush of the whole buffer *)
  (exists x, Py.len (data_buffer s ++ [x]) = BUFFER_SIZE /\
     flush_calls s' = flush_calls s ++ [data_buffer s ++ [x]] /\
     ((r = Ok tt /\ data_buffer s' = [] /\
       table (conn s') = table (conn s) ++ data_buffer s ++ [x])
      \/
      (r = Raise OperationalError /\
       data_buffer s' = data_buffer s ++ [x] /\
       table (conn s') = table (conn s)))).

(** The states in which the loop starts an iteration. *)
Inductive reachable : state -> Prop :=
| reach_init (rows : list Sample) : reachable (initial_state rows)
| reach_step (s : state) (t : tick) (s' : state) :
    reachable s -> loop_body t s = (Ok tt, s') -> reachable s'.

(** Tick number [i] of a test run: the clock shows [i], the CPU reads [i]
    percent, there is no GPU, the RAM reads 50 percent, and the disk
    counters stand at [i] MB read and [2 i] MB written. *)
Definition demo_tick (i : nat) : tick :=
  ok_tick (Py.str (Z.of_nat i)) (inject_Z (Z.of_nat i)) [] 50%Q
    (Z.of_nat i * MB, 2 * Z.of_nat i * MB).

Definition demo_ticks (n : nat) : list tick := map demo_tick (seq 0 n).

(** The same tick with the storage refusing to commit. *)
Definition commit_failing_tick (i : nat) : tick :=
  let t := demo_tick i in
  mkTick (now t) (cpu_probe t) (gpu_probe t) (ram_probe t) (disk_probe t)
    FailCommit.


(** The loop just after its baseline iteration on [demo_tick 0]. *)
Definition warmed_up : state :=
  state_of (run_metrics [] [demo_tick 0]).

(** The loop after the baseline tick and 59 samples. *)
Definition one_short_of_full : state :=
  state_of (run_metrics [] (demo_ticks 60)).

(** ** Vocabulary of the further properties *)

(** A value between 0 and 100. *)
Definition percentage (x : Q) : Prop := (0 <= x <= 100)%Q.


(** The CPU readings that the ticks supplied, in order. *)
Definition cpu_readings (ticks : list tick) : list Q :=
  flat_map
    (fun t => match cpu_probe t with Returns c => [c] | Fails => [] end)
    ticks.

(** The state once the flush of the buffer has returned and the buffer has
    been cleared. *)
Definition flushed (s : state) : state :=
  mkState (old_read s) (old_write s) (cpu_percentages s) (initial_cycle s)
    [] (mkDb (table (conn s) ++ data_buffer s) None) (gui s)
    (flush_calls s ++ [data_buffer s]).

(** The state a returning iteration leads to, from what the probes
    returned. *)
Definition next_state (s : state) (ts : string) (cpu : Q) (gpus : list Q)
    (ram : Q) (disk : Z * Z) : state :=
  if initial_cycle s then
    mkState (fst disk) (snd disk) (cpu_window_next cpu (cpu_percentages s))
      false (data_buffer s) (conn s) (gui s) (flush_calls s)
  else
    let s1 := sampled s ts cpu gpus ram disk in
    if Py.len (data_buffer s1) >=? BUFFER_SIZE then flushed s1 else s1.

(** The five metric labels show the values of sample [x]. *)
Definition shows (g : gui_vars) (x : Sample) : Prop :=
  cpu_label_var g = Percent (cpu_percent x) /\
  gpu_label_var g = Percent (gpu_percent x) /\
  ram_label_var g = Percent (ram_percent x) /\
  read_speed_var g = MBps (read_speed x) /\
  write_speed_var g = MBps (write_speed x).

(** What holds of the state [s] in which [run_metrics], started on a table
    holding [rows], stands after the ticks [ticks]. *)
Definition loop_invariant (rows : list Sample) (ticks : list tick)
    (s : state) : Prop :=
  table (conn s) = rows ++ concat (flush_calls s) /\
  txn (conn s) = None /\
  Forall (fun b => length b = 60%nat) (flush_calls s) /\
  (length (data_buffer s) < 60)%nat /\
  map timestamp (concat (flush_calls s) ++ data_buffer s)
    = map now (tl ticks) /\
  initial_cycle s = match ticks with [] => true | _ :: _ => false end /\
  cpu_percentages s = cpu_window_after (cpu_readings ticks) /\
  map cpu_probe ticks = map Returns (cpu_readings ticks) /\
  ((length ticks <= 1)%nat -> gui s = initial_gui) /\
  ((2 <= length ticks)%nat ->
   exists earlier x,
     concat (flush_calls s) ++ data_buffer s = earlier ++ [x] /\
     shows (gui s) x /\
     remaining_time (gui s) =
       remaining_text (match data_buffer s with
                       | [] => BUFFER_SIZE
                       | _ :: _ => Py.len (data_buffer s)
                       end)).

(** The readings a tick supplies are in the range of their probe: CPU and
    memory between 0 and 100, load of the first GPU between 0 and 1. *)
Definition readings_in_range (t : tick) : Prop :=
  match cpu_probe t with Returns c => percentage c | Fails => True end /\
  match gpu_probe t with
  | Returns (gpu0 :: _) => (0 <= gpu0 <= 1)%Q
  | _ => True
  end /\
  match ram_probe t with Returns r => percentage r | Fails => True end.

(** The three usage columns of a sample are between 0 and 100. *)
Definition usage_in_range (x : Sample) : Prop :=
  percentage (cpu_percent x) /\ percentage (gpu_percent x) /\
  percentage (ram_percent x).

(** From each tick to the next, neither disk counter decreases. *)
Definition counters_never_drop (ticks : list tick) : Prop :=
  forall before t1 t2 after r1 w1 r2 w2,
    ticks = before ++ t1 :: t2 :: after ->
    disk_probe t1 = Returns (r1, w1) -> disk_probe t2 = Returns (r2, w2) ->
    r1 <= r2 /\ w1 <= w2.

(** The two disk speeds of a sample are not negative. *)
Definition speeds_nonnegative (x : Sample) : Prop :=
  (0 <= read_speed x)%Q /\ (0 <= write_speed x)%Q.

(** ** List facts *)

Lemma tl_skipn {A} (k : nat) (l : list A) : tl (skipn k l) = skipn (S k) l.
Proof.
  revert l; induction k as [|k IH]; intros [|x l]; simpl; auto.
Qed.

Lemma lastn_all {A} (n : nat) (l : list A) :
  (length l <= n)%nat -> lastn n l = l.
Proof.
  intros H. unfold lastn.
  replace (length l - n)%nat with 0%nat by lia. reflexivity.
Qed.

Lemma lastn_length {A} (n : nat) (l : list A) :
  length (lastn n l) = Nat.min n (length l).
Proof. unfold lastn. rewrite length_skipn. lia. Qed.

Lemma lastn_snoc_full {A} (n : nat) (l : list A) (x : A) :
  (n <= length l)%nat ->
  lastn (S n) (l ++ [x]) = lastn n l ++ [x].
Proof.
  intros H. unfold lastn. rewrite length_app. simpl.
  replace (length l + 1 - S n)%nat with (length l - n)%nat by lia.
  rewrite skipn_app.
  replace (length l - n - length l)%nat with 0%nat by lia.
  reflexivity.
Qed.

Lemma lastn_snoc_slide {A} (n : nat) (l : list A) (x : A) :
  (n <= length l)%nat ->
  lastn n (l ++ [x]) = tl (lastn n l ++ [x]).
Proof.
  intros H. rewrite <- lastn_snoc_full by exact H.
  unfold lastn. rewrite tl_skipn, length_app. cbn [length].
  f_equal. lia.
Qed.

Lemma list_split_last {A} (n : nat) (l : list A) :
  length l = S n -> exists l' a, l = l' ++ [a] /\ length l' = n.
Proof.
  intros L. destruct (exists_last (l := l)) as (l' & a & E).
  - intros ->. discriminate L.
  - exists l', a. split; [exact E|].
    rewrite E, length_app in L. cbn [length] in L. lia.
Qed.

(** ** Rounding *)

Lemma round_half_even_comp (x y : Q) :
  (x == y)%Q -> Py.round_half_even x = Py.round_half_even y.
Proof.
  intros E. unfold Py.round_half_even.
  rewrite (Qfloor_comp _ _ E).
  assert (C : ((x - inject_Z (Qfloor y)) ?= (1 # 2))%Q =
              ((y - inject_Z (Qfloor y)) ?= (1 # 2))%Q).
  { apply Qcompare_comp; [rewrite E|]; reflexivity. }
  rewrite C. reflexivity.
Qed.


(** The rounded integer is within one half of the argument. *)
Lemma round_half_even_near (x : Q) :
  (inject_Z (Py.round_half_even x) - (1 # 2) <= x
   <= inject_Z (Py.round_half_even x) + (1 # 2))%Q.
Proof.
  unfold Py.round_half_even.
  pose proof (Qfloor_le x) as Lo. pose proof (Qlt_floor x) as Hi.
  rewrite inject_Z_plus in Hi. change (inject_Z 1) with 1%Q in Hi.
  destruct (Qcompare_spec (x - inject_Z (Qfloor x)) (1 # 2)) as [E|L|G].
  - destruct (Z.even (Qfloor x));
      [|rewrite inject_Z_plus; change (inject_Z 1) with 1%Q]; lra.
  - lra.
  - rewrite inject_Z_plus; change (inject_Z 1) with 1%Q. lra.
Qed.

Lemma round_half_even_upper (x : Q) (k : Z) :
  (x < inject_Z k + (1 # 2))%Q -> Py.round_half_even x <= k.
Proof.
  intros H. destruct (Z_le_gt_dec (Py.round_half_even x) k) as [L|G]; [exact L|].
  exfalso. pose proof (round_half_even_near x) as [Lo _].
  assert (inject_Z (k + 1) <= inject_Z (Py.round_half_even x))%Q
    by (rewrite <- Zle_Qle; lia).
  rewrite inject_Z_plus in *. change (inject_Z 1) with 1%Q in *. lra.
Qed.

Lemma round_half_even_lower (x : Q) (k : Z) :
  (inject_Z k - (1 # 2) < x)%Q -> k <= Py.round_half_even x.
Proof.
  intros H. destruct (Z_le_gt_dec k (Py.round_half_even x)) as [L|G]; [exact L|].
  exfalso. pose proof (round_half_even_near x) as [_ Hi].
  assert (inject_Z (Py.round_half_even x + 1) <= inject_Z k)%Q
    by (rewrite <- Zle_Qle; lia).
  rewrite inject_Z_plus in *. change (inject_Z 1) with 1%Q in *. lra.
Qed.

Lemma Qmake100_sign (n : Z) :
  ((Qmake n 100 <= 0)%Q <-> n <= 0) /\ ((Qmake n 100 < 0)%Q <-> n < 0).
Proof. unfold Qle, Qlt. simpl. split; split; lia. Qed.


(** Ties go to the even neighbour, as [round(0.125, 2) == 0.12] and
    [round(0.375, 2) == 0.38] in Python. *)
Example round2_ties_to_even :
  Py.round2 (1 # 8) = Qmake 12 100 /\ Py.round2 (3 # 8) = Qmake 38 100 /\
  Py.round2 (- (1 # 8)) = Qmake (-12) 100.
Proof. vm_compute. auto. Qed.

(** ** The CPU smoother *)

Lemma collect_cpu_returns (raw : Q) (w : list Q) (n : Z) :
  collect_cpu_metrics (Returns raw) w n =
  let window :=
    if Py.len (w ++ [raw]) >? n then Py.pop0 (w ++ [raw]) else w ++ [raw] in
  (if Py.len window =? 0 then Raise ZeroDivisionError
   else Ok (Py.round2 (mean window)),
   window).
Proof.
  unfold collect_cpu_metrics, mean. simpl call. cbv iota beta zeta.
  destruct (Py.len _ =? 0); reflexivity.
Qed.

Lemma collect_cpu_window (raw : Q) (w : list Q) :
  snd (collect_cpu_metrics (Returns raw) w CPU_AVG_WINDOW) =
  if (8 <=? length w)%nat then tl (w ++ [raw]) else w ++ [raw].
Proof.
  rewrite collect_cpu_returns. cbv zeta. cbn [snd].
  unfold CPU_AVG_WINDOW, Py.len, Py.pop0. rewrite length_app. cbn [length].
  destruct (Nat.leb_spec 8 (length w)) as [H|H];
    destruct (Z.gtb_spec (Z.of_nat (length w + 1)) 8) as [G|G];
    solve [reflexivity | lia].
Qed.

Lemma collect_cpu_ok (raw : Q) (w : list Q) :
  collect_cpu_metrics (Returns raw) w CPU_AVG_WINDOW =
  (Ok (Py.round2 (mean (cpu_window_next raw w))), cpu_window_next raw w).
Proof.
  pose proof (collect_cpu_window raw w) as W.
  rewrite collect_cpu_returns in *. cbv zeta in *. cbn [snd] in W.
  fold (cpu_window_next raw w) in W. rewrite W.
  destruct (Z.eqb_spec (Py.len (cpu_window_next raw w)) 0) as [E|E];
    [exfalso | reflexivity].
  unfold Py.len, cpu_window_next in E.
  destruct (Nat.leb_spec 8 (length w)) as [H|H].
  - change (tl (w ++ [raw])) with (skipn 1 (w ++ [raw])) in E.
    rewrite length_skipn, length_app in E. cbn [length] in E. lia.
  - rewrite length_app in E. cbn [length] in E. lia.
Qed.

Lemma cpu_window_after_lastn (readings : list Q) :
  cpu_window_after readings = lastn 8 readings.
Proof.
  induction readings as [|raw l IH] using rev_ind; [reflexivity|].
  unfold cpu_window_after in *. rewrite fold_left_app. simpl fold_left.
  rewrite collect_cpu_window, IH, lastn_length.
  destruct (Nat.leb_spec 8 (Nat.min 8 (length l))) as [H|H].
  - symmetry. apply lastn_snoc_slide. lia.
  - rewrite (lastn_all 8 l) by lia.
    symmetry. apply lastn_all. rewrite length_app. simpl. lia.
Qed.

Lemma cpu_window_after_snoc (readings : list Q) (raw : Q) :
  snd (collect_cpu_metrics (Returns raw) (cpu_window_after readings)
         CPU_AVG_WINDOW) = cpu_window_after (readings ++ [raw]).
Proof. unfold cpu_window_after. rewrite fold_left_app. reflexivity. Qed.


(** Nine readings 10, 20, ..., 90: the window drops the first one and the
    ninth call returns the mean of the last eight, 55.0. *)
Example cpu_smoother_nine_readings :
  let readings := map inject_Z [10; 20; 30; 40; 50; 60; 70; 80] in
  collect_cpu_metrics (Returns 90%Q) (cpu_window_after readings)
    CPU_AVG_WINDOW =
  (Ok (Qmake 5500 100), map inject_Z [20; 30; 40; 50; 60; 70; 80; 90]).
Proof. vm_compute. reflexivity. Qed.

(** ** The disk rate calculator *)

Lemma disk_speed_hundredths (delta : Z) :
  disk_speed delta =
  Qmake (Py.round_half_even (inject_Z delta * (100 # 1048576))) 100.
Proof.
  unfold disk_speed, Py.round2. f_equal.
  apply round_half_even_comp. field.
Qed.


Lemma disk_speed_of_drop (delta : Z) :
  delta < 0 ->
  (disk_speed delta <= 0)%Q /\
  ((disk_speed delta < 0)%Q <-> delta <= -5243).
Proof.
  intros Neg. rewrite disk_speed_hundredths.
  set (x := (inject_Z delta * (100 # 1048576))%Q).
  assert (D : (inject_Z delta <= inject_Z (-1))%Q) by (rewrite <- Zle_Qle; lia).
  change (inject_Z (-1)) with (-1 # 1)%Q in D.
  assert (U : Py.round_half_even x <= 0).
  { apply round_half_even_upper. change (inject_Z 0) with 0%Q.
    subst x. lra. }
  split; [apply Qmake100_sign; exact U|].
  rewrite (proj2 (Qmake100_sign _)). split.
  - intros N. destruct (Z_le_gt_dec delta (-5243)) as [L|G]; [exact L|exfalso].
    assert (0 <= Py.round_half_even x); [|lia].
    apply round_half_even_lower. change (inject_Z 0) with 0%Q.
    assert (inject_Z (-5242) <= inject_Z delta)%Q by (rewrite <- Zle_Qle; lia).
    change (inject_Z (-5242)) with (-5242 # 1)%Q in *. subst x. lra.
  - intros L. assert (Py.round_half_even x <= -1); [|lia].
    apply round_half_even_upper.
    assert (inject_Z delta <= inject_Z (-5243))%Q by (rewrite <- Zle_Qle; lia).
    change (inject_Z (-5243)) with (-5243 # 1)%Q in *.
    change (inject_Z (-1)) with (-1 # 1)%Q. subst x. lra.
Qed.

(** Counters (100 MB, 200 MB) then (150 MB, 260 MB): speeds 50.0 and
    60.0. *)
Example disk_speed_fifty_and_sixty :
  collect_disk_metrics (100 * MB) (200 * MB) false
    (Returns (150 * MB, 260 * MB)) =
  Ok (Qmake 5000 100, Qmake 6000 100, 150 * MB, 260 * MB).
Proof. vm_compute. reflexivity. Qed.

(** C2 fails on the code: no clamp is applied.  With the write counter
    dropping from 260 MB to 10 MB (and the read counter going from 100 MB to
    150 MB) the call returns a write speed of -250.0, which is negative and
    is not 0.0. *)
Lemma disk_speed_negative_on_counter_drop :
  let result :=
    collect_disk_metrics (100 * MB) (260 * MB) false
      (Returns (150 * MB, 10 * MB)) in
  10 * MB < 260 * MB /\
  result = Ok (Qmake 5000 100, Qmake (-25000) 100, 150 * MB, 10 * MB) /\
  (Qmake (-25000) 100 == -250)%Q /\
  ~ (forall rs ws nr nw, result = Ok (rs, ws, nr, nw) ->
       (ws == 0)%Q /\ (0 <= ws)%Q).
Proof.
  split; [reflexivity|]. split; [vm_compute; reflexivity|].
  split; [reflexivity|].
  intros H.
  destruct (H (Qmake 5000 100) (Qmake (-25000) 100) (150 * MB) (10 * MB))
    as [Z0 _]; [vm_compute; reflexivity|].
  discriminate Z0.
Qed.

(** C2 as the code has it.  On a non-initial call the two speeds are
    [round((new - old) / 1024 / 1024, 2)], whatever the sign of the
    difference.  When a counter is strictly lower than the previous one its
    speed is therefore never positive, and it is strictly negative exactly
    when the drop is of 5243 bytes or more (a smaller drop rounds to
    zero). *)
Theorem disk_speed_on_counter_drop (old_read old_write new_read new_write : Z) :
  new_read < old_read \/ new_write < old_write ->
  collect_disk_metrics old_read old_write false
    (Returns (new_read, new_write)) =
  Ok (disk_speed (new_read - old_read), disk_speed (new_write - old_write),
      new_read, new_write) /\
  (new_read < old_read ->
     (disk_speed (new_read - old_read) <= 0)%Q /\
     ((disk_speed (new_read - old_read) < 0)%Q <->
      5243 <= old_read - new_read)) /\
  (new_write < old_write ->
     (disk_speed (new_write - old_write) <= 0)%Q /\
     ((disk_speed (new_write - old_write) < 0)%Q <->
      5243 <= old_write - new_write)).
Proof.
  intros _. split; [reflexivity|].
  split; intros D.
  - destruct (disk_speed_of_drop (new_read - old_read)) as [A B]; [lia|].
    split; [exact A|]. rewrite B. lia.
  - destruct (disk_speed_of_drop (new_write - old_write)) as [A B]; [lia|].
    split; [exact A|]. rewrite B. lia.
Qed.

Lemma disk_speed_on_counter_drop_witness :
  collect_disk_metrics (100 * MB) (260 * MB) false
    (Returns (150 * MB, 10 * MB)) =
  Ok (disk_speed (150 * MB - 100 * MB), disk_speed (10 * MB - 260 * MB),
      150 * MB, 10 * MB) /\
  (150 * MB < 100 * MB ->
     (disk_speed (150 * MB - 100 * MB) <= 0)%Q /\
     ((disk_speed (150 * MB - 100 * MB) < 0)%Q <->
      5243 <= 100 * MB - 150 * MB)) /\
  (10 * MB < 260 * MB ->
     (disk_speed (10 * MB - 260 * MB) <= 0)%Q /\
     ((disk_speed (10 * MB - 260 * MB) < 0)%Q <->
      5243 <= 260 * MB - 10 * MB)).
Proof.
  apply (disk_speed_on_counter_drop (100 * MB) (260 * MB) (150 * MB) (10 * MB)).
  right. reflexivity.
Defined.

(** ** The persistence writer *)

Lemma write_to_database_ok (f : fault) (batch : list Sample) (db : database) :
  txn db = None -> fails f (length batch) = false ->
  write_to_database f batch db = (Ok tt, mkDb (table db ++ batch) None).
Proof.
  intros T F. unfold write_to_database, bind, execute_begin,
    executemany_insert, execute_commit.
  destruct f; try discriminate F; cbn in F |- *; rewrite T; cbn;
    try rewrite F; reflexivity.
Qed.

Lemma write_to_database_raises (f : fault) (batch : list Sample)
    (db : database) :
  fails f (length batch) = true \/ txn db <> None ->
  exists db', write_to_database f batch db = (Raise OperationalError, db') /\
              table db' = table db.
Proof.
  intros H. unfold write_to_database, bind, execute_begin,
    executemany_insert, execute_commit.
  destruct (txn db) as [p|] eqn:T.
  - exists db. destruct f; rewrite ?T; auto.
  - destruct H as [F|N]; [|congruence].
    destruct f; try discriminate F; cbn in F |- *; rewrite ?T; cbn;
      rewrite ?F; eexists; split; reflexivity.
Qed.

(** C8.  Whatever the storage does and whatever the state of the
    connection, a call of [write_to_database] either returns and the
    committed table has grown by exactly the whole batch, in order, or it
    raises and the committed table is unchanged: no part of a batch is ever
    committed. *)
Theorem flush_all_or_nothing (f : fault) (batch : list Sample)
    (db : database) :
  let result := write_to_database f batch db in
  (fst result = Ok tt /\
   table (snd result) = table db ++ batch /\ txn (snd result) = None) \/
  (fst result = Raise OperationalError /\
   table (snd result) = table db).
Proof.
  intros result. subst result.
  destruct (txn db) as [p|] eqn:T.
  - right. destruct (write_to_database_raises f batch db) as (db' & E & Tb).
    + right. congruence.
    + rewrite E. auto.
  - destruct (fails f (length batch)) eqn:F.
    + right. destruct (write_to_database_raises f batch db) as (db' & E & Tb);
        [auto | rewrite E; auto].
    + left. rewrite write_to_database_ok by assumption. auto.
Qed.

(** ** One iteration of the loop *)

Lemma collect_gpu_ok (gpus : list Q) :
  collect_gpu_metrics (Returns gpus) = Ok (gpu_value gpus).
Proof. destruct gpus; reflexivity. Qed.

(** The baseline iteration. *)
Lemma loop_body_baseline (s : state) ts cpu gpus ram disk f :
  initial_cycle s = true ->
  loop_body (mkTick ts (Returns cpu) (Returns gpus) (Returns ram)
               (Returns disk) f) s =
  (Ok tt, mkState (fst disk) (snd disk)
            (cpu_window_next cpu (cpu_percentages s)) false (data_buffer s)
            (conn s) (gui s) (flush_calls s)).
Proof.
  intros I. destruct disk as [nr nw].
  unfold loop_body, bind, call_collect_cpu, lift, get, modify.
  cbn [cpu_probe gpu_probe ram_probe disk_probe now storage].
  rewrite collect_cpu_ok, collect_gpu_ok.
  unfold collect_ram_metrics, collect_disk_metrics. cbn [call].
  cbn [set_cpu_percentages initial_cycle old_read old_write].
  rewrite I. reflexivity.
Qed.

(** A later iteration, up to the test on the buffer length. *)
Lemma loop_body_sampling (s : state) ts cpu gpus ram disk f :
  initial_cycle s = false ->
  loop_body (mkTick ts (Returns cpu) (Returns gpus) (Returns ram)
               (Returns disk) f) s =
  let s1 := sampled s ts cpu gpus ram disk in
  if Py.len (data_buffer s1) >=? BUFFER_SIZE then
    (call_write_to_database f (data_buffer s1) ;;;
     modify (set_data_buffer [])) s1
  else (Ok tt, s1).
Proof.
  intros I. destruct disk as [nr nw].
  unfold loop_body, bind at 1 2 3 4 5 6 7 8.
  unfold call_collect_cpu, lift, get, modify at 1 2 3.
  cbn [cpu_probe gpu_probe ram_probe disk_probe now storage].
  rewrite collect_cpu_ok, collect_gpu_ok.
  unfold collect_ram_metrics, collect_disk_metrics. cbn [call].
  cbn [set_cpu_percentages initial_cycle old_read old_write].
  rewrite I. cbv zeta.
  unfold modify at 1 2. unfold bind at 1 2.
  change (Py.round2 (inject_Z (nr - old_read s) / 1024 / 1024))
    with (disk_speed (nr - old_read s)).
  change (Py.round2 (inject_Z (nw - old_write s) / 1024 / 1024))
    with (disk_speed (nw - old_write s)).
  cbv zeta.
  unfold set_gui at 1, set_data_buffer at 1, set_old, set_cpu_percentages.
  cbn [data_buffer old_read old_write cpu_percentages initial_cycle conn
       gui flush_calls].
  rewrite I.
  set (s1 := sampled s ts cpu gpus ram (nr, nw)).
  change ((if Py.len (data_buffer s1) >=? BUFFER_SIZE
           then call_write_to_database f (data_buffer s1) ;;;
                modify (set_data_buffer [])
           else ret tt) s1 =
          (if Py.len (data_buffer s1) >=? BUFFER_SIZE
           then (call_write_to_database f (data_buffer s1) ;;;
                 modify (set_data_buffer [])) s1
           else (Ok tt, s1))).
  destruct (Py.len (data_buffer s1) >=? BUFFER_SIZE); reflexivity.
Qed.

(** The baseline iteration, for any tick whose probes return. *)
Lemma loop_body_first (s : state) (t : tick) :
  initial_cycle s = true -> probes_return t = true ->
  exists s',
    loop_body t s = (Ok tt, s') /\
    data_buffer s' = data_buffer s /\ conn s' = conn s /\ gui s' = gui s /\
    flush_calls s' = flush_calls s /\ initial_cycle s' = false.
Proof.
  intros I P. returning_tick t P.
  rewrite loop_body_baseline by exact I.
  eexists. split; [reflexivity|]. cbn. auto.
Qed.

(** An iteration after the first one, with all probes returning: a sample
    stamped with the tick's time is appended and published, then the length
    of the buffer is tested. *)
Lemma loop_body_running (s : state) (t : tick) :
  initial_cycle s = false -> probes_return t = true ->
  exists x s1,
    timestamp x = now t /\
    data_buffer s1 = data_buffer s ++ [x] /\
    conn s1 = conn s /\ flush_calls s1 = flush_calls s /\
    initial_cycle s1 = false /\
    gui s1 = update_gui (cpu_percent x) (gpu_percent x) (ram_percent x)
               (read_speed x) (write_speed x) (data_buffer s1) /\
    loop_body t s =
      if Py.len (data_buffer s1) >=? BUFFER_SIZE then
        (call_write_to_database (storage t) (data_buffer s1) ;;;
         modify (set_data_buffer [])) s1
      else (Ok tt, s1).
Proof.
  intros I P. returning_tick t P.
  exists (sample_in s ts c g r d), (sampled s ts c g r d).
  rewrite loop_body_sampling by exact I.
  repeat split; reflexivity.
Qed.

(** An iteration in which a probe raises: the exception leaves the body;
    nothing was appended, published or written. *)
Lemma loop_body_probe_fails (s : state) (t : tick) :
  probes_return t = false ->
  exists s',
    loop_body t s = (Raise OSError, s') /\
    data_buffer s' = data_buffer s /\ conn s' = conn s /\ gui s' = gui s /\
    flush_calls s' = flush_calls s /\ initial_cycle s' = initial_cycle s /\
    old_read s' = old_read s /\ old_write s' = old_write s.
Proof.
  intros P. destruct t as [ts c g r d f]. unfold probes_return in P.
  cbn [cpu_probe gpu_probe ram_probe disk_probe] in P.
  unfold loop_body, bind, call_collect_cpu, lift, get.
  cbn [cpu_probe gpu_probe ram_probe disk_probe now storage].
  destruct c as [cpu|].
  2:{ unfold collect_cpu_metrics. cbn [call]. eexists. split; [reflexivity|].
      cbn. auto 10. }
  rewrite collect_cpu_ok.
  destruct g as [gpus|].
  2:{ cbn [collect_gpu_metrics call]. eexists. split; [reflexivity|].
      cbn. auto 10. }
  rewrite collect_gpu_ok.
  destruct r as [ram|].
  2:{ cbn [collect_ram_metrics call]. eexists. split; [reflexivity|].
      cbn. auto 10. }
  destruct d as [disk|]; [discriminate P|].
  cbn [collect_ram_metrics collect_disk_metrics call].
  eexists. split; [reflexivity|]. cbn. auto 10.
Qed.

Lemma update_gui_remaining c g r rs ws (buf : list Sample) :
  remaining_time (update_gui c g r rs ws buf) = remaining_text (Py.len buf).
Proof. reflexivity. Qed.

(** The flush of a full buffer inside the loop. *)
Lemma flush_then_clear_ok (f : fault) (s : state) :
  txn (conn s) = None -> fails f (length (data_buffer s)) = false ->
  (call_write_to_database f (data_buffer s) ;;;
   modify (set_data_buffer [])) s =
  (Ok tt,
   mkState (old_read s) (old_write s) (cpu_percentages s) (initial_cycle s)
     [] (mkDb (table (conn s) ++ data_buffer s) None) (gui s)
     (flush_calls s ++ [data_buffer s])).
Proof.
  intros T F. unfold bind, call_write_to_database, modify.
  cbn [log_flush_call conn].
  rewrite write_to_database_ok by assumption. reflexivity.
Qed.

Lemma flush_then_clear_raises (f : fault) (s : state) :
  fails f (length (data_buffer s)) = true \/ txn (conn s) <> None ->
  exists db',
    (call_write_to_database f (data_buffer s) ;;;
     modify (set_data_buffer [])) s =
    (Raise OperationalError,
     mkState (old_read s) (old_write s) (cpu_percentages s) (initial_cycle s)
       (data_buffer s) db' (gui s) (flush_calls s ++ [data_buffer s])) /\
    table db' = table (conn s).
Proof.
  intros H. unfold bind, call_write_to_database, modify.
  cbn [log_flush_call conn].
  destruct (write_to_database_raises f (data_buffer s) (conn s) H)
    as (db' & E & Tb).
  exists db'. rewrite E. split; [reflexivity | exact Tb].
Qed.

(** ** The baseline tick *)


(** ** Filling the buffer *)

Lemma run_loop_app (a b : list tick) (s : state) :
  run_loop (a ++ b) s =
  match run_loop a s with
  | Running s' => run_loop b s'
  | Crashed e s' => Crashed e s'
  end.
Proof.
  revert s; induction a as [|t a IH]; intros s; cbn [run_loop app].
  - reflexivity.
  - destruct (loop_body t s) as [[u|e] s']; [apply IH | reflexivity].
Qed.

(** Ticks that do not fill the buffer: each appends its sample, nothing is
    flushed, and after the first [k] of them the buffer holds the first [k]
    samples. *)
Lemma run_loop_fill (ticks : list tick) : forall s : state,
  initial_cycle s = false ->
  forallb probes_return ticks = true ->
  (length (data_buffer s) + length ticks < 60)%nat ->
  exists xs s',
    run_loop ticks s = Running s' /\
    data_buffer s' = data_buffer s ++ xs /\
    map timestamp xs = map now ticks /\
    conn s' = conn s /\ flush_calls s' = flush_calls s /\
    initial_cycle s' = false /\
    (forall k, (k <= length ticks)%nat ->
       exists sk, run_loop (firstn k ticks) s = Running sk /\
                  data_buffer sk = data_buffer s ++ firstn k xs /\
                  conn sk = conn s /\ flush_calls sk = flush_calls s).
Proof.
  induction ticks as [|t rest IH]; intros s I P L.
  - exists [], s. rewrite app_nil_r. repeat split; auto.
    intros k K. exists s. cbn in K.
    replace k with 0%nat by lia. cbn. rewrite app_nil_r. auto.
  - cbn [forallb] in P. apply andb_prop in P as [Pt Pr]. cbn [length] in L.
    destruct (loop_body_running s t I Pt)
      as (x & s1 & Tx & B1 & C1 & F1 & I1 & _ & E).
    assert (N : (Py.len (data_buffer s1) >=? BUFFER_SIZE) = false).
    { rewrite B1. unfold Py.len, BUFFER_SIZE. rewrite length_app. cbn [length].
      rewrite Z.geb_leb. apply Z.leb_gt. lia. }
    rewrite N in E.
    destruct (IH s1 I1 Pr) as (xs & s' & R & B & Ts & C & F & I' & Pre).
    { rewrite B1, length_app. cbn [length]. lia. }
    exists (x :: xs), s'. cbn [run_loop map]. rewrite E.
    split; [exact R|].
    split; [rewrite B, B1, <- app_assoc; reflexivity|].
    split; [congruence|].
    split; [congruence|]. split; [congruence|]. split; [exact I'|].
    intros [|k] K.
    + exists s. cbn. rewrite app_nil_r. auto.
    + cbn [length] in K. destruct (Pre k) as (sk & Rk & Bk & Ck & Fk); [lia|].
      exists sk. cbn [firstn run_loop]. rewrite E.
      split; [exact Rk|].
      split; [rewrite Bk, B1, <- app_assoc; reflexivity|].
      split; congruence.
Qed.

Lemma healthy_probes (ticks : list tick) :
  forallb healthy ticks = true -> forallb probes_return ticks = true.
Proof.
  rewrite !forallb_forall. intros H t In.
  apply H in In. unfold healthy in In. apply andb_prop in In. tauto.
Qed.

(** Sixty healthy ticks on an empty buffer, in the running state. *)
Lemma sixty_ticks_one_flush (s : state) (ticks : list tick) :
  initial_cycle s = false -> data_buffer s = [] -> txn (conn s) = None ->
  length ticks = 60%nat -> forallb healthy ticks = true ->
  exists batch s',
    run_loop ticks s = Running s' /\
    length batch = 60%nat /\
    map timestamp batch = map now ticks /\
    flush_calls s' = flush_calls s ++ [batch] /\
    table (conn s') = table (conn s) ++ batch /\ txn (conn s') = None /\
    data_buffer s' = [] /\ initial_cycle s' = false /\
    remaining_time (gui s') = remaining_text 60 /\
    (forall k, (k < 60)%nat ->
       exists sk, run_loop (firstn k ticks) s = Running sk /\
                  data_buffer sk = firstn k batch /\
                  conn sk = conn s /\ flush_calls sk = flush_calls s).
Proof.
  intros I B T L H.
  destruct (list_split_last 59 ticks L) as (front & t & -> & Lf).
  rewrite forallb_app in H. apply andb_prop in H as [Hf Ht].
  cbn [forallb] in Ht. rewrite andb_true_r in Ht.
  unfold healthy in Ht. apply andb_prop in Ht as [Pt St].
  destruct (run_loop_fill front s I (healthy_probes _ Hf))
    as (xs & s59 & R & B59 & Ts & C59 & F59 & I59 & Pre).
  { rewrite B, Lf. cbn. lia. }
  rewrite B in B59. cbn [app] in B59.
  assert (Lx : length xs = 59%nat).
  { rewrite <- Lf, <- (length_map timestamp xs), Ts. apply length_map. }
  destruct (loop_body_running s59 t I59 Pt)
    as (x & s1 & Tx & B1 & C1 & F1 & I1 & G1 & E).
  assert (L1 : length (data_buffer s1) = 60%nat).
  { rewrite B1, B59, length_app, Lx. reflexivity. }
  assert (N : (Py.len (data_buffer s1) >=? BUFFER_SIZE) = true).
  { unfold Py.len. rewrite L1. reflexivity. }
  rewrite N in E.
  rewrite flush_then_clear_ok in E;
    [| congruence | destruct (storage t); [reflexivity | discriminate..]].
  eexists (xs ++ [x]), _.
  rewrite run_loop_app, R. cbn [run_loop]. rewrite E.
  split; [reflexivity|]. cbn [flush_calls conn table txn data_buffer
    initial_cycle gui].
  split; [rewrite length_app, Lx; reflexivity|].
  split; [rewrite !map_app, Ts; cbn [map]; congruence|].
  split; [rewrite F1, F59, B1, B59; reflexivity|].
  split; [rewrite C1, C59, B1, B59; reflexivity|].
  split; [reflexivity|]. split; [reflexivity|]. split; [exact I1|].
  split.
  { rewrite G1, update_gui_remaining. unfold Py.len. rewrite L1.
    reflexivity. }
  intros k K. destruct (Pre k) as (sk & Rk & Bk & Ck & Fk); [lia|].
  exists sk. rewrite firstn_app, Lf.
  replace (k - 59)%nat with 0%nat by lia. cbn [firstn]. rewrite app_nil_r.
  split; [exact Rk|]. rewrite B in Bk. cbn [app] in Bk.
  split; [|auto].
  rewrite Bk, firstn_app, Lx.
  replace (k - 59)%nat with 0%nat by lia. cbn [firstn].
  rewrite app_nil_r. reflexivity.
Qed.

(** C4.  From a running loop with an empty buffer, sixty ticks (probes
    returning, storage working) append sixty samples.  Exactly one call of
    [write_to_database] is made, at the sixtieth; its batch holds the sixty
    samples in the order of the ticks ([batch]'s first [k] elements are the
    buffer after [k] ticks, and its timestamps are those of the ticks); the
    table grows by this batch, and the buffer is empty afterwards. *)
Theorem full_buffer_one_flush_in_order (s : state) (ticks : list tick) :
  initial_cycle s = false -> data_buffer s = [] -> txn (conn s) = None ->
  Py.len ticks = BUFFER_SIZE -> forallb healthy ticks = true ->
  exists batch s',
    run_loop ticks s = Running s' /\
    Py.len batch = BUFFER_SIZE /\
    map timestamp batch = map now ticks /\
    flush_calls s' = flush_calls s ++ [batch] /\
    table (conn s') = table (conn s) ++ batch /\
    data_buffer s' = [] /\
    (forall k, (k < 60)%nat ->
       exists sk, run_loop (firstn k ticks) s = Running sk /\
                  data_buffer sk = firstn k batch /\
                  conn sk = conn s /\ flush_calls sk = flush_calls s).
Proof.
  intros I B T L H.
  assert (L' : length ticks = 60%nat) by (unfold Py.len, BUFFER_SIZE in L; lia).
  destruct (sixty_ticks_one_flush s ticks I B T L' H)
    as (batch & s' & R & Lb & Ts & F & Tb & _ & Bs & _ & _ & Pre).
  exists batch, s'. unfold Py.len, BUFFER_SIZE. rewrite Lb. auto 10.
Qed.

Lemma full_buffer_one_flush_in_order_witness :
  exists batch s',
    run_loop (map demo_tick (seq 1 60)) warmed_up = Running s' /\
    Py.len batch = BUFFER_SIZE /\
    map timestamp batch = map now (map demo_tick (seq 1 60)) /\
    flush_calls s' = flush_calls warmed_up ++ [batch] /\
    table (conn s') = table (conn warmed_up) ++ batch /\
    data_buffer s' = [] /\
    (forall k, (k < 60)%nat ->
       exists sk,
         run_loop (firstn k (map demo_tick (seq 1 60))) warmed_up
           = Running sk /\
         data_buffer sk = firstn k batch /\
         conn sk = conn warmed_up /\ flush_calls sk = flush_calls warmed_up).
Proof.
  apply (full_buffer_one_flush_in_order warmed_up (map demo_tick (seq 1 60)));
    vm_compute; reflexivity.
Defined.

(** ** The buffer invariant *)

Lemma loop_body_cases (s : state) (t : tick) :
  (length (data_buffer s) < 60)%nat -> txn (conn s) = None ->
  exists r s',
    loop_body t s = (r, s') /\
    (length (data_buffer s') <= 60)%nat /\
    iteration_effect s r s' /\
    (r = Ok tt -> (length (data_buffer s') < 60)%nat /\ txn (conn s') = None).
Proof.
  intros L T. unfold iteration_effect.
  destruct (probes_return t) eqn:P.
  2:{ destruct (loop_body_probe_fails s t P) as (s' & E & B & C & _ & F & _).
      exists (Raise OSError), s'. rewrite B, C, F.
      split; [exact E|]. split; [lia|]. split; [auto|]. discriminate. }
  destruct (initial_cycle s) eqn:I.
  { destruct (loop_body_first s t I P) as (s' & E & B & C & _ & F & _).
    exists (Ok tt), s'. rewrite B, C, F.
    split; [exact E|]. split; [lia|]. split; [auto|]. auto. }
  destruct (loop_body_running s t I P) as (x & s1 & _ & B1 & C1 & F1 & _ & _ & E).
  assert (L1 : length (data_buffer s1) = S (length (data_buffer s))).
  { rewrite B1, length_app. cbn [length]. lia. }
  unfold Py.len, BUFFER_SIZE in *.
  destruct (Z.geb_spec (Z.of_nat (length (data_buffer s1))) 60) as [G|G].
  - destruct (fails (storage t) (length (data_buffer s1))) eqn:Fl.
    + destruct (flush_then_clear_raises (storage t) s1 (or_introl Fl))
        as (db' & E' & Tb).
      rewrite E' in E. eexists _, _. split; [exact E|].
      cbn [data_buffer flush_calls conn].
      split; [lia|]. split; [|discriminate].
      right; right. exists x. rewrite <- B1.
      split; [lia|]. split; [congruence|]. right. rewrite Tb, C1. auto.
    + rewrite flush_then_clear_ok in E by congruence.
      eexists _, _. split; [exact E|].
      cbn [data_buffer flush_calls conn table txn length].
      split; [lia|]. split; [|intros _; split; [lia | reflexivity]].
      right; right. exists x. rewrite <- B1.
      split; [lia|]. split; [congruence|]. left. rewrite C1. auto.
  - exists (Ok tt), s1. split; [exact E|].
    split; [lia|]. split; [|intros _; split; [lia | congruence]].
    right; left. exists x. rewrite <- B1, C1.
    split; [lia|]. auto.
Qed.

Lemma reachable_invariant (s : state) :
  reachable s -> (length (data_buffer s) < 60)%nat /\ txn (conn s) = None.
Proof.
  induction 1 as [rows | s t s' R [L T] E].
  - cbn. split; [lia | reflexivity].
  - destruct (loop_body_cases s t L T) as (r & s2 & E2 & _ & _ & K).
    rewrite E in E2. injection E2 as <- <-. apply K. reflexivity.
Qed.

(** C5.  In every state reached by the loop the buffer holds fewer than
    [BUFFER_SIZE] samples, and whatever the next tick is, the next iteration
    leaves at most [BUFFER_SIZE] samples in it and does one of three things:
    it appends nothing and flushes nothing; it appends one sample below
    capacity and flushes nothing; or it appends the sample that brings the
    length to exactly [BUFFER_SIZE] and then calls [write_to_database] once
    on the whole buffer, after which the buffer is empty and the table has
    grown by the whole batch, or, when the storage raises, the buffer and
    the table are unchanged.  So a flush happens only on reaching
    [BUFFER_SIZE], and the buffer is only ever emptied whole, by a flush. *)
Theorem buffer_bounded_and_flushed_whole (s : state) :
  reachable s ->
  Py.len (data_buffer s) < BUFFER_SIZE /\
  forall t : tick, exists r s',
    loop_body t s = (r, s') /\
    Py.len (data_buffer s') <= BUFFER_SIZE /\
    iteration_effect s r s'.
Proof.
  intros R. destruct (reachable_invariant s R) as [L T].
  split; [unfold Py.len, BUFFER_SIZE; lia|].
  intros t. destruct (loop_body_cases s t L T) as (r & s' & E & L' & Eff & _).
  exists r, s'. split; [exact E|]. split; [|exact Eff].
  unfold Py.len, BUFFER_SIZE. lia.
Qed.

Lemma buffer_bounded_and_flushed_whole_witness :
  Py.len (data_buffer warmed_up) < BUFFER_SIZE /\
  forall t : tick, exists r s',
    loop_body t warmed_up = (r, s') /\
    Py.len (data_buffer s') <= BUFFER_SIZE /\
    iteration_effect warmed_up r s'.
Proof.
  apply (buffer_bounded_and_flushed_whole warmed_up).
  apply (reach_step (initial_state []) (demo_tick 0)).
  - apply reach_init.
  - vm_compute. reflexivity.
Defined.

(** ** A failing flush *)

(** C6 fails on the code: nothing catches the storage error.  Run the loop
    from its start on a baseline tick and 59 further ticks, then on a tick
    whose flush cannot commit, then on one more tick.  The loop is not
    running afterwards: it ended at the failing flush with the sixty samples
    still in the buffer (not discarded), the table empty, a single call of
    [write_to_database] made (no retry), and the last tick was never
    taken. *)
Lemma failed_flush_stops_the_loop :
  let ticks := demo_ticks 60 ++ [commit_failing_tick 60] in
  let o := run_metrics [] (ticks ++ [demo_tick 61]) in
  still_running o = false /\
  o = run_metrics [] ticks /\
  (exists s, o = Crashed OperationalError s /\
     Py.len (data_buffer s) = 60 /\ table (conn s) = [] /\
     flush_calls s = [data_buffer s]).
Proof.
  vm_compute. split; [reflexivity|]. split; [reflexivity|].
  eexists. repeat split.
Qed.

(** C6 as the code has it.  When the tick that fills the buffer meets a
    failing storage, [write_to_database] is called once and raises; the
    exception leaves [run_metrics], so the loop ends there whatever ticks
    would follow.  The buffer is not emptied: it holds exactly
    [BUFFER_SIZE] samples; and the table is unchanged. *)
Theorem failed_flush_ends_run_metrics (s : state) (t : tick)
    (rest : list tick) :
  initial_cycle s = false -> probes_return t = true ->
  Py.len (data_buffer s) = BUFFER_SIZE - 1 ->
  fails (storage t) 60 = true ->
  exists x s',
    run_loop (t :: rest) s = Crashed OperationalError s' /\
    data_buffer s' = data_buffer s ++ [x] /\
    Py.len (data_buffer s') = BUFFER_SIZE /\
    table (conn s') = table (conn s) /\
    flush_calls s' = flush_calls s ++ [data_buffer s'].
Proof.
  intros I P L F. unfold Py.len, BUFFER_SIZE in *.
  destruct (loop_body_running s t I P) as (x & s1 & _ & B1 & C1 & F1 & _ & _ & E).
  assert (L1 : length (data_buffer s1) = 60%nat).
  { rewrite B1, length_app. cbn [length]. lia. }
  assert (N : (Py.len (data_buffer s1) >=? BUFFER_SIZE) = true).
  { unfold Py.len. rewrite L1. reflexivity. }
  rewrite N in E.
  destruct (flush_then_clear_raises (storage t) s1) as (db' & E' & Tb).
  { left. rewrite L1. exact F. }
  rewrite E' in E. exists x. eexists. cbn [run_loop]. rewrite E.
  split; [reflexivity|]. cbn [data_buffer conn flush_calls].
  split; [exact B1|]. split; [rewrite L1; reflexivity|].
  split; [congruence|]. congruence.
Qed.

Lemma failed_flush_ends_run_metrics_witness :
  exists x s',
    run_loop (commit_failing_tick 60 :: [demo_tick 61]) one_short_of_full
      = Crashed OperationalError s' /\
    data_buffer s' = data_buffer one_short_of_full ++ [x] /\
    Py.len (data_buffer s') = BUFFER_SIZE /\
    table (conn s') = table (conn one_short_of_full) /\
    flush_calls s' = flush_calls one_short_of_full ++ [data_buffer s'].
Proof.
  apply (failed_flush_ends_run_metrics one_short_of_full
           (commit_failing_tick 60) [demo_tick 61]);
    vm_compute; reflexivity.
Defined.

(** ** A failing probe *)




(** ** Sixty-one ticks from the start *)

(** C9 fails on the code in its last part.  After 61 ticks from the start
    the text published by the 61st tick is "Time until next save: 0s" (the
    buffer was full, 60 of 60, when [update_gui] ran, before the flush),
    and not "Time until next save: 59s" (1 of 60). *)
Lemma fill_level_published_at_tick_61 :
  let s := state_of (run_metrics [] (demo_ticks 61)) in
  remaining_time (gui s) = "Time until next save: 0s"%string /\
  remaining_text 1 = "Time until next save: 59s"%string /\
  remaining_time (gui s) <> remaining_text 1 /\
  data_buffer s = [].
Proof.
  vm_compute. split; [reflexivity|]. split; [reflexivity|].
  split; [discriminate | reflexivity].
Qed.

(** C9 as the code has it.  From the start, on a table holding [rows]
    (none, for an empty store), 61 ticks with probes returning and storage
    working, the first being the baseline tick, end with exactly one call of
    [write_to_database], made at the 61st tick and not before, whose 60 rows
    are appended to the table; the buffer is empty afterwards.  The text
    published at the 61st tick shows 0 remaining (60 of 60), because
    [update_gui] runs before the flush; 59 remaining (1 of 60) is what the
    62nd tick publishes. *)
Theorem sixty_one_ticks_one_flush (rows : list Sample) (ticks : list tick) :
  Py.len ticks = 61 -> forallb healthy ticks = true ->
  exists batch s',
    run_metrics rows ticks = Running s' /\
    flush_calls s' = [batch] /\ Py.len batch = 60 /\
    table (conn s') = rows ++ batch /\
    data_buffer s' = [] /\
    remaining_time (gui s') = "Time until next save: 0s"%string /\
    (forall k, (k < 61)%nat ->
       exists sk, run_metrics rows (firstn k ticks) = Running sk /\
                  flush_calls sk = [] /\ table (conn sk) = rows) /\
    (forall t62, probes_return t62 = true ->
       exists s'', run_loop [t62] s' = Running s'' /\
         remaining_time (gui s'') = "Time until next save: 59s"%string).
Proof.
  intros L H. unfold Py.len in L.
  destruct ticks as [|t0 ticks]; [discriminate L|].
  cbn [length] in L. cbn [forallb] in H. apply andb_prop in H as [H0 H].
  unfold healthy in H0. apply andb_prop in H0 as [P0 _].
  unfold run_metrics.
  destruct (loop_body_first (initial_state rows) t0 eq_refl P0)
    as (s1 & E0 & B0 & C0 & _ & F0 & I0).
  destruct (sixty_ticks_one_flush s1 ticks I0 B0)
    as (batch & s' & R & Lb & _ & F & Tb & Tx & Bs & I' & G & Pre);
    [rewrite C0; reflexivity | lia | exact H |].
  exists batch, s'. cbn [run_loop]. rewrite E0.
  split; [exact R|]. split; [rewrite F, F0; reflexivity|].
  split; [unfold Py.len; rewrite Lb; reflexivity|].
  split; [rewrite Tb, C0; reflexivity|]. split; [exact Bs|].
  split; [rewrite G; reflexivity|]. split.
  - intros [|k] K.
    + exists (initial_state rows). cbn. auto.
    + destruct (Pre k) as (sk & Rk & _ & Ck & Fk); [lia|].
      exists sk. cbn [firstn run_loop]. rewrite E0.
      split; [exact Rk|]. rewrite Fk, Ck, F0, C0. auto.
  - intros t62 P.
    destruct (loop_body_running s' t62 I' P)
      as (x & s2 & _ & B2 & _ & _ & _ & G2 & E).
    rewrite Bs in B2. cbn [app] in B2. rewrite B2 in E, G2.
    change (Py.len [x] >=? BUFFER_SIZE) with false in E.
    exists s2. cbn [run_loop]. rewrite E. split; [reflexivity|].
    rewrite G2. reflexivity.
Qed.

Lemma sixty_one_ticks_one_flush_witness :
  exists batch s',
    run_metrics [] (demo_ticks 61) = Running s' /\
    flush_calls s' = [batch] /\ Py.len batch = 60 /\
    table (conn s') = [] ++ batch /\
    data_buffer s' = [] /\
    remaining_time (gui s') = "Time until next save: 0s"%string /\
    (forall k, (k < 61)%nat ->
       exists sk, run_metrics [] (firstn k (demo_ticks 61)) = Running sk /\
                  flush_calls sk = [] /\ table (conn sk) = []) /\
    (forall t62, probes_return t62 = true ->
       exists s'', run_loop [t62] s' = Running s'' /\
         remaining_time (gui s'') = "Time until next save: 59s"%string).
Proof.
  apply (sixty_one_ticks_one_flush [] (demo_ticks 61));
    vm_compute; reflexivity.
Defined.

(** ** The query-side time filter *)

(** C10.  [filter_time] returns for the four period strings of the combo
    box: "All" gives the DataFrame unchanged, and "Last Hour", "Last Day"
    and "Last Week" give, in order, the rows whose index is at or after
    [now] minus one hour, one day, one week.  For any other string it raises
    [UnboundLocalError]. *)
Theorem filter_time_by_period {A : Type} (now : Analyzer.datetime)
    (df : Analyzer.DataFrame A) (time_period : string) :
  (time_period = "All"%string ->
   Analyzer.filter_time now df time_period = Ok df) /\
  (time_period = "Last Hour"%string ->
   Analyzer.filter_time now df time_period =
   Ok (filter (fun row => now - 3600 * 1000000 <=? fst row) df)) /\
  (time_period = "Last Day"%string ->
   Analyzer.filter_time now df time_period =
   Ok (filter (fun row => now - 86400 * 1000000 <=? fst row) df)) /\
  (time_period = "Last Week"%string ->
   Analyzer.filter_time now df time_period =
   Ok (filter (fun row => now - 604800 * 1000000 <=? fst row) df)) /\
  (~ In time_period Analyzer.periods ->
   Analyzer.filter_time now df time_period = Raise UnboundLocalError).
Proof.
  repeat split; try (intros ->; reflexivity).
  intros N. unfold Analyzer.filter_time.
  destruct (String.eqb_spec time_period "Last Hour") as [E|_];
    [exfalso; apply N; rewrite E; cbn; tauto|].
  destruct (String.eqb_spec time_period "Last Day") as [E|_];
    [exfalso; apply N; rewrite E; cbn; tauto|].
  destruct (String.eqb_spec time_period "Last Week") as [E|_];
    [exfalso; apply N; rewrite E; cbn; tauto|].
  destruct (String.eqb_spec time_period "All") as [E|_];
    [exfalso; apply N; rewrite E; cbn; tauto|].
  reflexivity.
Qed.

Lemma filter_time_by_period_witness :
  Analyzer.filter_time 10000000000 [(1000000000, 1%nat); (9000000000, 2%nat)]
    "Last Hour" = Ok [(9000000000, 2%nat)] /\
  Analyzer.filter_time 10000000000 [(1000000000, 1%nat); (9000000000, 2%nat)]
    "Last Month" = Raise UnboundLocalError.
Proof.
  pose proof (filter_time_by_period 10000000000
                [(1000000000, 1%nat); (9000000000, 2%nat)] "Last Hour")
    as (_ & H & _).
  pose proof (filter_time_by_period 10000000000
                [(1000000000, 1%nat); (9000000000, 2%nat)] "Last Month")
    as (_ & _ & _ & _ & U).
  split.
  - rewrite (H eq_refl). reflexivity.
  - apply U. cbn. intros [E|[E|[E|[E|[]]]]]; discriminate E.
Defined.

(** ** Further properties of the metric helpers *)



Lemma round2_percentage (x : Q) : percentage x -> percentage (Py.round2 x).
Proof.
  unfold percentage, Py.round2. intros [Lo Hi].
  assert (A : 0 <= Py.round_half_even (x * 100)).
  { apply round_half_even_lower. change (inject_Z 0) with 0%Q. lra. }
  assert (B : Py.round_half_even (x * 100) <= 10000).
  { apply round_half_even_upper. change (inject_Z 10000) with 10000%Q. lra. }
  unfold Qle. cbn [Qnum Qden]. lia.
Qed.

Lemma sum_from_bounds (xs : list Q) : forall acc : Q,
  Forall percentage xs ->
  (acc <= fold_left Qplus xs acc
   <= acc + 100 * inject_Z (Z.of_nat (length xs)))%Q.
Proof.
  induction xs as [|x xs IH]; intros acc F.
  - cbn [fold_left length]. change (inject_Z (Z.of_nat 0)) with 0%Q. lra.
  - inversion F as [|? ? [Lo Hi] F']; subst. cbn [fold_left length].
    destruct (IH (acc + x)%Q F') as [A B].
    rewrite Nat2Z.inj_succ. unfold Z.succ. rewrite inject_Z_plus.
    change (inject_Z 1) with 1%Q. lra.
Qed.

Lemma mean_percentage (xs : list Q) :
  xs <> [] -> Forall percentage xs -> percentage (mean xs).
Proof.
  intros N F. unfold mean, Py.sum, Py.len, percentage.
  destruct (sum_from_bounds xs 0%Q F) as [A B].
  assert (P : (0 < inject_Z (Z.of_nat (length xs)))%Q).
  { change 0%Q with (inject_Z 0). rewrite <- Zlt_Qlt.
    destruct xs; [contradiction | cbn [length]; lia]. }
  split.
  - apply Qle_shift_div_l; [exact P | lra].
  - apply Qle_shift_div_r; [exact P | lra].
Qed.





Lemma disk_speed_nonneg (delta : Z) : 0 <= delta -> (0 <= disk_speed delta)%Q.
Proof.
  intros P. rewrite disk_speed_hundredths.
  assert (A : 0 <= Py.round_half_even (inject_Z delta * (100 # 1048576))).
  { apply round_half_even_lower. change (inject_Z 0) with 0%Q.
    assert (inject_Z 0 <= inject_Z delta)%Q by (rewrite <- Zle_Qle; exact P).
    change (inject_Z 0) with 0%Q in *.
    generalize dependent (inject_Z delta). intros q Hq. lra. }
  unfold Qle. cbn [Qnum Qden]. lia.
Qed.


(** ** Further properties of the sampling loop *)

(** An iteration that returns had all its probes returning, and leads to
    [next_state]. *)
Lemma loop_body_returns (s : state) (t : tick) (s' : state) :
  txn (conn s) = None -> loop_body t s = (Ok tt, s') ->
  exists ts cpu gpus ram disk f,
    t = mkTick ts (Returns cpu) (Returns gpus) (Returns ram) (Returns disk) f /\
    s' = next_state s ts cpu gpus ram disk.
Proof.
  intros T H. destruct (probes_return t) eqn:P.
  2:{ destruct (loop_body_probe_fails s t P) as (s2 & E & _).
      rewrite E in H. discriminate H. }
  returning_tick t P. exists ts, c, g, r, d, f. split; [reflexivity|].
  unfold next_state. destruct (initial_cycle s) eqn:I.
  - rewrite loop_body_baseline in H by exact I. injection H as <-.
    reflexivity.
  - rewrite loop_body_sampling in H by exact I. cbv zeta in *.
    set (s1 := sampled s ts c g r d) in *.
    destruct (Py.len (data_buffer s1) >=? BUFFER_SIZE).
    + destruct (fails f (length (data_buffer s1))) eqn:Fl.
      * destruct (flush_then_clear_raises f s1 (or_introl Fl)) as (db' & E & _).
        rewrite E in H. discriminate H.
      * rewrite flush_then_clear_ok in H by (exact T || exact Fl).
        injection H as <-. reflexivity.
    + injection H as <-. reflexivity.
Qed.

Lemma run_loop_snoc_running (ticks : list tick) (t : tick) (s s' : state) :
  run_loop (ticks ++ [t]) s = Running s' ->
  exists s0, run_loop ticks s = Running s0 /\ loop_body t s0 = (Ok tt, s').
Proof.
  rewrite run_loop_app. destruct (run_loop ticks s) as [s0|e s0];
    [|discriminate].
  cbn [run_loop].
  destruct (loop_body t s0) as [[[]|e] s2] eqn:E; [|discriminate].
  intros [= <-]. exists s0. auto.
Qed.

Lemma cpu_window_after_next (readings : list Q) (raw : Q) :
  cpu_window_after (readings ++ [raw]) =
  cpu_window_next raw (cpu_window_after readings).
Proof. rewrite <- cpu_window_after_snoc, collect_cpu_ok. reflexivity. Qed.

Lemma cpu_readings_snoc (ticks : list tick) ts cpu gpus ram disk f :
  cpu_readings (ticks ++ [mkTick ts (Returns cpu) gpus ram disk f]) =
  cpu_readings ticks ++ [cpu].
Proof. unfold cpu_readings. rewrite flat_map_app. reflexivity. Qed.

Lemma concat_snoc {A} (ls : list (list A)) (l : list A) :
  concat (ls ++ [l]) = concat ls ++ l.
Proof. rewrite concat_app. cbn [concat]. rewrite app_nil_r. reflexivity. Qed.

Lemma run_metrics_invariant (rows : list Sample) (ticks : list tick) :
  forall s, run_metrics rows ticks = Running s -> loop_invariant rows ticks s.
Proof.
  unfold run_metrics.
  induction ticks as [|t ticks IH] using rev_ind; intros s R.
  - injection R as <-. unfold loop_invariant. cbn.
    rewrite app_nil_r. repeat split; auto; try lia.
  - apply run_loop_snoc_running in R as (s0 & R0 & B).
    destruct (IH s0 R0) as (Tb & Tx & Fc & Lb & Ts & Ic & Cp & Cr & G1 & G2).
    destruct (loop_body_returns s0 t s Tx B)
      as (ts & c & g & r & d & f & -> & ->).
    unfold loop_invariant, next_state.
    rewrite cpu_readings_snoc, cpu_window_after_next, <- Cp, length_app.
    cbn [length].
    destruct ticks as [|t0 ticks'].
    + (* the baseline iteration *)
      rewrite Ic.
      cbn [conn table txn flush_calls data_buffer initial_cycle
           cpu_percentages gui app tl].
      cbn [tl] in Ts.
      split; [exact Tb|]. split; [exact Tx|]. split; [exact Fc|].
      split; [exact Lb|]. split; [exact Ts|].
      split; [reflexivity|]. split; [reflexivity|].
      split; [reflexivity|]. split.
      * intros _. apply G1. cbn. lia.
      * cbn. lia.
    + (* a sampling iteration *)
      rewrite Ic. cbv zeta.
      set (x := sample_in s0 ts c g r d).
      set (s1 := sampled s0 ts c g r d).
      assert (B1 : data_buffer s1 = data_buffer s0 ++ [x]) by reflexivity.
      assert (TS : map timestamp ((concat (flush_calls s0) ++ data_buffer s0)
                                    ++ [x])
                   = map now (tl ((t0 :: ticks') ++
                       [mkTick ts (Returns c) (Returns g) (Returns r)
                          (Returns d) f]))).
      { rewrite map_app, Ts. cbn [tl app]. rewrite map_app. reflexivity. }
      assert (SH : shows (gui s1) x) by (repeat split).
      assert (RT : remaining_time (gui s1)
                   = remaining_text (Py.len (data_buffer s1))) by reflexivity.
      assert (L1 : length (data_buffer s1) = S (length (data_buffer s0))).
      { rewrite B1, length_app. cbn [length]. lia. }
      unfold Py.len, BUFFER_SIZE in *.
      destruct (Z.geb_spec (Z.of_nat (length (data_buffer s1))) 60) as [Ge|Lt].
      * (* the buffer is full: flush and clear *)
        assert (L60 : length (data_buffer s1) = 60%nat) by lia.
        unfold flushed.
        cbn [conn table txn flush_calls data_buffer initial_cycle
             cpu_percentages gui].
        rewrite concat_snoc, app_nil_r.
        change (conn s1) with (conn s0). change (flush_calls s1)
          with (flush_calls s0).
        rewrite Tb, B1, <- !app_assoc.
        split; [reflexivity|]. split; [reflexivity|].
        split; [apply Forall_app; split;
                [exact Fc | constructor; [rewrite <- B1; exact L60 | constructor]]|].
        split; [cbn [length]; lia|]. split; [rewrite app_assoc; exact TS|].
        split; [reflexivity|]. split; [reflexivity|].
        split; [rewrite !map_app, Cr; reflexivity|].
        split; [intros K; cbn [length] in K; lia|]. intros _.
        exists (concat (flush_calls s0) ++ data_buffer s0), x.
        split; [rewrite app_assoc; reflexivity|]. split; [exact SH|].
        rewrite RT, L60. reflexivity.
      * (* below capacity *)
        change (conn s1) with (conn s0). change (flush_calls s1)
          with (flush_calls s0).
        split; [exact Tb|]. split; [exact Tx|]. split; [exact Fc|].
        split; [lia|]. split; [rewrite B1, app_assoc; exact TS|].
        split; [reflexivity|]. split; [reflexivity|].
        split; [rewrite !map_app, Cr; reflexivity|].
        split; [intros K; cbn [length] in K; lia|]. intros _.
        exists (concat (flush_calls s0) ++ data_buffer s0), x.
        split; [rewrite B1, app_assoc; reflexivity|]. split; [exact SH|].
        rewrite RT, B1.
        destruct (data_buffer s0 ++ [x]) eqn:E; [|reflexivity].
        destruct (data_buffer s0); discriminate E.
Qed.

Lemma length_concat_60 {A} (ls : list (list A)) :
  Forall (fun b => length b = 60%nat) ls ->
  length (concat ls) = (60 * length ls)%nat.
Proof.
  induction 1 as [|b ls Hb _ IH]; [reflexivity|].
  cbn [concat length]. rewrite length_app, Hb, IH. lia.
Qed.

(** X3.  When [run_metrics] is still running after some ticks, every tick
    after the first has produced exactly one sample, and these samples are,
    in the order of the ticks, the rows added to the table since the start
    followed by the content of the buffer: none is lost, duplicated or
    reordered, and the rows the table held at the start are untouched.  The
    rows added are the batches flushed so far, each of 60 samples. *)
Theorem samples_are_persisted_or_buffered (rows : list Sample)
    (ticks : list tick) (s : state) :
  run_metrics rows ticks = Running s ->
  exists persisted,
    table (conn s) = rows ++ persisted /\
    persisted = concat (flush_calls s) /\
    Forall (fun b => Py.len b = BUFFER_SIZE) (flush_calls s) /\
    map timestamp (persisted ++ data_buffer s) = map now (tl ticks).
Proof.
  intros R. destruct (run_metrics_invariant rows ticks s R)
    as (Tb & _ & Fc & _ & Ts & _).
  exists (concat (flush_calls s)). repeat split; auto.
  eapply Forall_impl; [|exact Fc]. cbv beta. intros b E.
  unfold Py.len. rewrite E. reflexivity.
Qed.

Lemma samples_are_persisted_or_buffered_witness :
  let s := state_of (run_metrics [] (demo_ticks 125)) in
  exists persisted,
    table (conn s) = [] ++ persisted /\
    persisted = concat (flush_calls s) /\
    Forall (fun b => Py.len b = BUFFER_SIZE) (flush_calls s) /\
    map timestamp (persisted ++ data_buffer s)
      = map now (tl (demo_ticks 125)).
Proof.
  apply (samples_are_persisted_or_buffered [] (demo_ticks 125)).
  vm_compute. reflexivity.
Defined.

(** X4.  When [run_metrics] is still running after [n] ticks, it has
    flushed [(n - 1) / 60] times, the buffer holds [(n - 1) mod 60] samples,
    and the table has grown by 60 rows per flush. *)
Theorem flush_every_sixty_samples (rows : list Sample) (ticks : list tick)
    (s : state) :
  run_metrics rows ticks = Running s ->
  length (flush_calls s) = ((length ticks - 1) / 60)%nat /\
  length (data_buffer s) = ((length ticks - 1) mod 60)%nat /\
  length (table (conn s)) =
    (length rows + 60 * ((length ticks - 1) / 60))%nat.
Proof.
  intros R. destruct (run_metrics_invariant rows ticks s R)
    as (Tb & _ & Fc & Lb & Ts & _).
  pose proof (length_concat_60 _ Fc) as Lc.
  assert (E : (length ticks - 1 =
               60 * length (flush_calls s) + length (data_buffer s))%nat).
  { rewrite <- Lc, <- length_app, <- (length_map timestamp), Ts, length_map.
    destruct ticks; cbn [tl length]; lia. }
  assert (Q : length (flush_calls s) = ((length ticks - 1) / 60)%nat).
  { apply (Nat.div_unique _ 60 _ (length (data_buffer s)));
      [exact Lb | exact E]. }
  split; [exact Q|]. split.
  - apply (Nat.mod_unique _ 60 (length (flush_calls s)));
      [exact Lb | exact E].
  - rewrite Tb, length_app, Lc, Q. reflexivity.
Qed.

Lemma flush_every_sixty_samples_witness :
  let s := state_of (run_metrics [] (demo_ticks 125)) in
  length (flush_calls s) = ((length (demo_ticks 125) - 1) / 60)%nat /\
  length (data_buffer s) = ((length (demo_ticks 125) - 1) mod 60)%nat /\
  length (table (conn s)) =
    (length (@nil Sample) + 60 * ((length (demo_ticks 125) - 1) / 60))%nat.
Proof.
  apply (flush_every_sixty_samples [] (demo_ticks 125)).
  vm_compute. reflexivity.
Defined.

Lemma healthy_step (s : state) (t : tick) :
  txn (conn s) = None -> healthy t = true ->
  exists s', loop_body t s = (Ok tt, s').
Proof.
  intros T H. unfold healthy in H. apply andb_prop in H as [P St].
  destruct (initial_cycle s) eqn:I.
  - destruct (loop_body_first s t I P) as (s' & E & _). eauto.
  - destruct (loop_body_running s t I P)
      as (x & s1 & _ & _ & C1 & _ & _ & _ & E).
    destruct (Py.len (data_buffer s1) >=? BUFFER_SIZE); [|eauto].
    rewrite flush_then_clear_ok in E;
      [eauto | congruence | destruct (storage t); [reflexivity | discriminate..]].
Qed.

(** X5.  As long as every probe returns and the storage works,
    [run_metrics] never raises: after any number of such ticks it is still
    running. *)
Theorem healthy_environment_never_crashes (rows : list Sample)
    (ticks : list tick) :
  forallb healthy ticks = true ->
  exists s, run_metrics rows ticks = Running s.
Proof.
  induction ticks as [|t ticks IH] using rev_ind; intros H.
  - eexists. reflexivity.
  - rewrite forallb_app in H. apply andb_prop in H as [Hs Ht].
    cbn [forallb] in Ht. rewrite andb_true_r in Ht.
    destruct (IH Hs) as (s0 & R0).
    destruct (run_metrics_invariant rows ticks s0 R0) as (_ & Tx & _).
    destruct (healthy_step s0 t Tx Ht) as (s' & E).
    exists s'. unfold run_metrics in *. rewrite run_loop_app, R0.
    cbn [run_loop]. rewrite E. reflexivity.
Qed.

Lemma healthy_environment_never_crashes_witness :
  exists s, run_metrics [] (demo_ticks 125) = Running s.
Proof.
  apply (healthy_environment_never_crashes [] (demo_ticks 125)).
  vm_compute. reflexivity.
Defined.

(** X6.  When [run_metrics] is still running after some ticks, every tick
    supplied a CPU reading, and the list [cpu_percentages] holds the last
    eight of them (all of them when there are fewer): the reading of the
    first tick, which produces no sample, is averaged into the samples that
    follow it. *)
Theorem loop_cpu_window_includes_first_tick (rows : list Sample)
    (ticks : list tick) (s : state) :
  run_metrics rows ticks = Running s ->
  exists readings,
    map cpu_probe ticks = map Returns readings /\
    cpu_percentages s = lastn 8 readings.
Proof.
  intros R. destruct (run_metrics_invariant rows ticks s R)
    as (_ & _ & _ & _ & _ & _ & Cp & Cr & _).
  exists (cpu_readings ticks). split; [exact Cr|].
  rewrite Cp. apply cpu_window_after_lastn.
Qed.

Lemma loop_cpu_window_includes_first_tick_witness :
  exists readings,
    map cpu_probe (demo_ticks 3) = map Returns readings /\
    cpu_percentages (state_of (run_metrics [] (demo_ticks 3)))
      = lastn 8 readings.
Proof.
  apply (loop_cpu_window_includes_first_tick [] (demo_ticks 3)).
  vm_compute. reflexivity.
Defined.

(** X7.  When [run_metrics] is still running after two ticks or more, the
    five metric labels show the values of the most recent sample (the last
    of the rows added to the table followed by the buffer), and the
    remaining-time label shows a count [k] between 0 and 59 such that [k]
    plus the length of the buffer is a multiple of 60: the count is never
    negative and never 60.  Before the second tick the labels are as
    [__main__] left them. *)
Theorem gui_shows_latest_sample (rows : list Sample) (ticks : list tick)
    (s : state) :
  run_metrics rows ticks = Running s ->
  ((length ticks <= 1)%nat -> gui s = initial_gui) /\
  ((2 <= length ticks)%nat ->
   exists earlier x k,
     skipn (length rows) (table (conn s)) ++ data_buffer s = earlier ++ [x] /\
     shows (gui s) x /\
     0 <= k < 60 /\ (k + Py.len (data_buffer s)) mod 60 = 0 /\
     remaining_time (gui s) =
       ("Time until next save: " ++ Py.str k ++ "s")%string).
Proof.
  intros R. destruct (run_metrics_invariant rows ticks s R)
    as (Tb & _ & _ & Lb & _ & _ & _ & _ & G1 & G2).
  split; [exact G1|]. intros L.
  destruct (G2 L) as (earlier & x & E & Sh & Rt).
  exists earlier, x.
  exists (match data_buffer s with
          | [] => 0
          | _ :: _ => BUFFER_SIZE - Py.len (data_buffer s)
          end).
  split.
  { rewrite Tb, skipn_app, skipn_all, Nat.sub_diag. exact E. }
  split; [exact Sh|]. unfold Py.len, BUFFER_SIZE in *.
  destruct (data_buffer s) as [|y buf] eqn:B.
  - split; [lia|]. split; [reflexivity | exact Rt].
  - set (n := Z.of_nat (length (y :: buf))) in *.
    assert (1 <= n < 60) by (subst n; cbn [length] in *; lia).
    split; [lia|]. split; [|exact Rt].
    replace (60 - n + n) with 60 by lia. reflexivity.
Qed.

Lemma gui_shows_latest_sample_witness :
  let s := state_of (run_metrics [] (demo_ticks 125)) in
  ((length (demo_ticks 125) <= 1)%nat -> gui s = initial_gui) /\
  ((2 <= length (demo_ticks 125))%nat ->
   exists earlier x k,
     skipn (length (@nil Sample)) (table (conn s)) ++ data_buffer s
       = earlier ++ [x] /\
     shows (gui s) x /\
     0 <= k < 60 /\ (k + Py.len (data_buffer s)) mod 60 = 0 /\
     remaining_time (gui s) =
       ("Time until next save: " ++ Py.str k ++ "s")%string).
Proof.
  apply (gui_shows_latest_sample [] (demo_ticks 125)).
  vm_compute. reflexivity.
Defined.

Lemma run_loop_crash_split (ticks : list tick) : forall (s : state) e s',
  run_loop ticks s = Crashed e s' ->
  exists before t after s0,
    ticks = before ++ t :: after /\
    run_loop before s = Running s0 /\
    loop_body t s0 = (Raise e, s').
Proof.
  induction ticks as [|t ticks IH]; intros s e s' R; [discriminate R|].
  cbn [run_loop] in R. destruct (loop_body t s) as [[[]|e1] s1] eqn:B.
  - destruct (IH s1 e s' R) as (before & t' & after & s0 & -> & R0 & B0).
    exists (t :: before), t', after, s0. cbn [run_loop app]. rewrite B. auto.
  - injection R as <- <-. exists [], t, ticks, s. auto.
Qed.

(** X8.  Whatever the probes and the storage do, and whether
    [run_metrics] is still running or has ended on an exception, the table
    consists of the rows it held at the start, unchanged and in place,
    followed by whole batches of 60 samples: no row is ever altered or
    removed, and no part of a batch is ever stored. *)
Theorem table_grows_by_whole_batches (rows : list Sample)
    (ticks : list tick) :
  exists batches,
    table (conn (state_of (run_metrics rows ticks))) = rows ++ concat batches /\
    Forall (fun b => Py.len b = BUFFER_SIZE) batches.
Proof.
  assert (F : forall ls : list (list Sample),
    Forall (fun b => length b = 60%nat) ls ->
    Forall (fun b => Py.len b = BUFFER_SIZE) ls).
  { intros ls. apply Forall_impl. intros b E. unfold Py.len. rewrite E.
    reflexivity. }
  destruct (run_metrics rows ticks) as [s|e s] eqn:R; cbn [state_of].
  - destruct (run_metrics_invariant rows ticks s R) as (Tb & _ & Fc & _).
    exists (flush_calls s). auto.
  - unfold run_metrics in R.
    destruct (run_loop_crash_split _ _ _ _ R)
      as (before & t & after & s0 & _ & R0 & B).
    destruct (run_metrics_invariant rows before s0 R0)
      as (Tb & Tx & Fc & Lb & _).
    exists (flush_calls s0). split; [|auto]. rewrite <- Tb.
    destruct (loop_body_cases s0 t Lb Tx) as (r & s2 & B2 & _ & Eff & _).
    rewrite B in B2. injection B2 as <- <-.
    destruct Eff as [(_ & _ & E) | [(x & _ & Ok_ & _) | (x & _ & _ & Fl)]].
    + exact E.
    + discriminate Ok_.
    + destruct Fl as [(Ok_ & _) | (_ & _ & E)]; [discriminate Ok_ | exact E].
Qed.

Lemma loop_body_returns_counters (s : state) (t : tick) (s' : state) :
  loop_body t s = (Ok tt, s') ->
  disk_probe t = Returns (old_read s', old_write s').
Proof.
  intros H. destruct (probes_return t) eqn:P.
  2:{ destruct (loop_body_probe_fails s t P) as (s2 & E & _).
      rewrite E in H. discriminate H. }
  returning_tick t P. cbn [disk_probe]. destruct d as [nr nw].
  destruct (initial_cycle s) eqn:I.
  - rewrite loop_body_baseline in H by exact I. injection H as <-.
    reflexivity.
  - rewrite loop_body_sampling in H by exact I. cbv zeta in H.
    destruct (Py.len (data_buffer (sampled s ts c g r (nr, nw)))
              >=? BUFFER_SIZE).
    + unfold bind, call_write_to_database, modify in H.
      destruct (write_to_database f _ _) as [[[]|e] db] in H;
        [|discriminate H].
      injection H as <-. reflexivity.
    + injection H as <-. reflexivity.
Qed.

(** ** Further properties of the time filter *)

Lemma index_ge_narrower {A} (df : Analyzer.DataFrame A) (a b : Z) :
  a <= b ->
  Analyzer.index_ge (Analyzer.index_ge df a) b = Analyzer.index_ge df b.
Proof.
  intros L. unfold Analyzer.index_ge, Analyzer.DataFrame, Analyzer.datetime in *.
  induction df as [|row df IH]; [reflexivity|]. cbn [filter]. cbv beta.
  destruct (a <=? fst row) eqn:Ea; destruct (b <=? fst row) eqn:Eb;
    cbn [filter]; cbv beta; rewrite ?Eb, ?IH; try reflexivity.
  apply Z.leb_le in Eb. apply Z.leb_gt in Ea. lia.
Qed.

Lemma index_ge_incl {A} (df : Analyzer.DataFrame A) (a : Z) :
  incl (Analyzer.index_ge df a) df.
Proof. intros row H. apply filter_In in H. tauto. Qed.

Lemma filter_time_bounded {A} (now : Analyzer.datetime)
    (df : Analyzer.DataFrame A) :
  Analyzer.filter_time now df "Last Hour"
    = Ok (Analyzer.index_ge df (now - 3600000000)) /\
  Analyzer.filter_time now df "Last Day"
    = Ok (Analyzer.index_ge df (now - 86400000000)) /\
  Analyzer.filter_time now df "Last Week"
    = Ok (Analyzer.index_ge df (now - 604800000000)).
Proof. repeat split. Qed.

(** X9.  The three bounded periods nest: filtering the result of "Last
    Week" by "Last Day", or the result of "Last Day" by "Last Hour", at the
    same instant gives what the narrower period gives on the whole
    DataFrame; so every row of "Last Hour" is a row of "Last Day", every row
    of "Last Day" a row of "Last Week", and all are rows of the
    DataFrame. *)
Theorem filter_time_periods_nest {A : Type} (now : Analyzer.datetime)
    (df : Analyzer.DataFrame A) :
  exists h d w,
    Analyzer.filter_time now df "Last Hour" = Ok h /\
    Analyzer.filter_time now df "Last Day" = Ok d /\
    Analyzer.filter_time now df "Last Week" = Ok w /\
    Analyzer.filter_time now d "Last Hour" = Ok h /\
    Analyzer.filter_time now w "Last Day" = Ok d /\
    incl h d /\ incl d w /\ incl w df.
Proof.
  destruct (filter_time_bounded now df) as (H & D & W).
  exists (Analyzer.index_ge df (now - 3600000000)),
         (Analyzer.index_ge df (now - 86400000000)),
         (Analyzer.index_ge df (now - 604800000000)).
  assert (HD : Analyzer.index_ge
                 (Analyzer.index_ge df (now - 86400000000))
                 (now - 3600000000)
               = Analyzer.index_ge df (now - 3600000000))
    by (apply index_ge_narrower; lia).
  assert (DW : Analyzer.index_ge
                 (Analyzer.index_ge df (now - 604800000000))
                 (now - 86400000000)
               = Analyzer.index_ge df (now - 86400000000))
    by (apply index_ge_narrower; lia).
  split; [exact H|]. split; [exact D|]. split; [exact W|].
  split.
  { rewrite (proj1 (filter_time_bounded now _)). rewrite HD. reflexivity. }
  split.
  { rewrite (proj1 (proj2 (filter_time_bounded now _))). rewrite DW.
    reflexivity. }
  split; [rewrite <- HD; apply index_ge_incl|].
  split; [rewrite <- DW; apply index_ge_incl|].
  apply index_ge_incl.
Qed.

(** ** Ranges of the stored values *)

Lemma cpu_window_next_percentage (raw : Q) (w : list Q) :
  Forall percentage w -> percentage raw ->
  Forall percentage (cpu_window_next raw w) /\ cpu_window_next raw w <> [].
Proof.
  intros F R.
  assert (A : Forall percentage (w ++ [raw])).
  { apply Forall_app. split; [exact F | constructor; [exact R | constructor]]. }
  unfold cpu_window_next. destruct (Nat.leb_spec 8 (length w)) as [L|L].
  - destruct w as [|a [|b w]]; cbn [length] in L; try lia.
    cbn [app tl] in *. inversion A; subst. split; [assumption | discriminate].
  - split; [exact A|]. destruct w; discriminate.
Qed.

Lemma run_metrics_ranges (rows : list Sample) (ticks : list tick) :
  Forall readings_in_range ticks ->
  forall s, run_metrics rows ticks = Running s ->
  Forall percentage (cpu_percentages s) /\
  Forall usage_in_range (concat (flush_calls s) ++ data_buffer s).
Proof.
  unfold run_metrics.
  induction ticks as [|t ticks IH] using rev_ind; intros F s R.
  - injection R as <-. cbn. split; constructor.
  - apply Forall_app in F as [Fs Ft]. inversion Ft as [|? ? Rt _]; subst.
    apply run_loop_snoc_running in R as (s0 & R0 & B).
    destruct (IH Fs s0 R0) as [Cw Us].
    destruct (run_metrics_invariant rows ticks s0 R0) as (_ & Tx & _).
    destruct (loop_body_returns s0 t s Tx B)
      as (ts & c & g & r & d & f & -> & ->).
    destruct Rt as (Rc & Rg & Rr). cbn [cpu_probe gpu_probe ram_probe] in *.
    destruct (cpu_window_next_percentage c (cpu_percentages s0) Cw Rc)
      as [Cw' Ne].
    unfold next_state. destruct (initial_cycle s0).
    + cbn [cpu_percentages flush_calls data_buffer]. auto.
    + cbv zeta. set (x := sample_in s0 ts c g r d).
      assert (Ux : usage_in_range x).
      { unfold usage_in_range, x, sample_in.
        cbn [cpu_percent gpu_percent ram_percent].
        split; [apply round2_percentage, mean_percentage; assumption|].
        split; [|apply round2_percentage, Rr].
        destruct g as [|gpu0 rest]; cbn [gpu_value].
        - split; discriminate.
        - apply round2_percentage. unfold percentage. lra. }
      assert (U : Forall usage_in_range
                    ((concat (flush_calls s0) ++ data_buffer s0) ++ [x])).
      { apply Forall_app. split; [exact Us | constructor; [exact Ux | constructor]]. }
      destruct (Py.len (data_buffer (sampled s0 ts c g r d)) >=? BUFFER_SIZE).
      * unfold flushed. cbn [cpu_percentages flush_calls data_buffer sampled].
        split; [exact Cw'|].
        rewrite concat_snoc, app_nil_r, app_assoc. exact U.
      * cbn [cpu_percentages flush_calls data_buffer sampled].
        split; [exact Cw'|]. rewrite app_assoc. exact U.
Qed.

(** X10.  When every tick's CPU and memory readings are between 0 and 100
    and the load of its first GPU (if any) is between 0 and 1, every sample
    that [run_metrics] has added to the table or holds in the buffer has its
    CPU, GPU and RAM values between 0 and 100. *)
Theorem stored_usage_is_percentage (rows : list Sample) (ticks : list tick)
    (s : state) :
  Forall readings_in_range ticks ->
  run_metrics rows ticks = Running s ->
  Forall usage_in_range
    (skipn (length rows) (table (conn s)) ++ data_buffer s).
Proof.
  intros F R.
  destruct (run_metrics_invariant rows ticks s R) as (Tb & _).
  rewrite Tb, skipn_app, skipn_all, Nat.sub_diag.
  apply (run_metrics_ranges rows ticks F s R).
Qed.

Lemma stored_usage_is_percentage_witness :
  Forall usage_in_range
    (skipn (length (@nil Sample))
       (table (conn (state_of (run_metrics [] (demo_ticks 3)))))
     ++ data_buffer (state_of (run_metrics [] (demo_ticks 3)))).
Proof.
  apply (stored_usage_is_percentage [] (demo_ticks 3)).
  - cbv [demo_ticks map seq]. repeat constructor; discriminate.
  - vm_compute. reflexivity.
Defined.

Lemma run_metrics_speeds (rows : list Sample) (ticks : list tick) :
  counters_never_drop ticks ->
  forall s, run_metrics rows ticks = Running s ->
  Forall speeds_nonnegative (concat (flush_calls s) ++ data_buffer s).
Proof.
  induction ticks as [|t ticks IH] using rev_ind; intros N s R.
  - unfold run_metrics in R. injection R as <-. constructor.
  - assert (N0 : counters_never_drop ticks).
    { intros before t1 t2 after r1 w1 r2 w2 E. apply (N before t1 t2 (after ++ [t])).
      rewrite E, <- app_assoc. reflexivity. }
    unfold run_metrics in R.
    apply run_loop_snoc_running in R as (s0 & R0 & B).
    fold (run_metrics rows ticks) in R0.
    pose proof (IH N0 s0 R0) as Sp.
    destruct (run_metrics_invariant rows ticks s0 R0)
      as (_ & Tx & _ & _ & _ & Ic & _).
    destruct (loop_body_returns s0 t s Tx B)
      as (ts & c & g & r & d & f & -> & ->).
    unfold next_state. rewrite Ic.
    destruct ticks as [|t0 ticks'] using rev_ind; [exact Sp|].
    clear IHticks'.
    replace (match ticks' ++ [t0] with [] => true | _ :: _ => false end)
      with false by (destruct ticks'; reflexivity).
    cbv zeta. set (x := sample_in s0 ts c g r d).
    assert (Px : speeds_nonnegative x).
    { unfold run_metrics in R0.
      apply run_loop_snoc_running in R0 as (s9 & _ & B0).
      apply loop_body_returns_counters in B0.
      destruct d as [nr nw].
      destruct (N ticks' t0
                  (mkTick ts (Returns c) (Returns g) (Returns r)
                     (Returns (nr, nw)) f) []
                  (old_read s0) (old_write s0) nr nw) as [Lr Lw];
        [rewrite <- app_assoc; reflexivity | exact B0 | reflexivity |].
      split; apply disk_speed_nonneg; cbn [fst snd]; lia. }
    assert (U : Forall speeds_nonnegative
                  ((concat (flush_calls s0) ++ data_buffer s0) ++ [x])).
    { apply Forall_app. split; [exact Sp | constructor; [exact Px | constructor]]. }
    destruct (Py.len (data_buffer (sampled s0 ts c g r d)) >=? BUFFER_SIZE).
    + unfold flushed. cbn [flush_calls data_buffer sampled].
      rewrite concat_snoc, app_nil_r, app_assoc. exact U.
    + cbn [flush_calls data_buffer sampled]. rewrite app_assoc. exact U.
Qed.

(** X11.  When, from each tick to the next, neither disk counter decreases,
    every sample that [run_metrics] has added to the table or holds in the
    buffer has read and write speeds that are not negative. *)
Theorem stored_speeds_are_nonnegative (rows : list Sample)
    (ticks : list tick) (s : state) :
  counters_never_drop ticks ->
  run_metrics rows ticks = Running s ->
  Forall speeds_nonnegative
    (skipn (length rows) (table (conn s)) ++ data_buffer s).
Proof.
  intros N R.
  destruct (run_metrics_invariant rows ticks s R) as (Tb & _).
  rewrite Tb, skipn_app, skipn_all, Nat.sub_diag.
  apply (run_metrics_speeds rows ticks N s R).
Qed.

Lemma stored_speeds_are_nonnegative_witness :
  Forall speeds_nonnegative
    (skipn (length (@nil Sample))
       (table (conn (state_of (run_metrics [] (demo_ticks 3)))))
     ++ data_buffer (state_of (run_metrics [] (demo_ticks 3)))).
Proof.
  apply (stored_speeds_are_nonnegative [] (demo_ticks 3)).
  - intros before t1 t2 after r1 w1 r2 w2 E.
    destruct before as [|b0 [|b1 [|b2 before]]];
      cbv [demo_ticks map seq app] in E.
    + injection E as <- <- _. intros [= <- <-] [= <- <-].
      vm_compute. split; discriminate.
    + injection E as _ <- <- _. intros [= <- <-] [= <- <-].
      vm_compute. split; discriminate.
    + discriminate E.
    + destruct before; discriminate E.
  - vm_compute. reflexivity.
Defined.
